(** * Blogicum: the blog application's models and views

    A shallow embedding of [blogicum/blog/models.py] and
    [blogicum/blog/views.py].  Tables are finite maps from primary key to
    row, a queryset is the list of (primary key, row) pairs it yields, a
    view is a function of the store, the request and the clock. *)

From stdpp Require Import base option list gmap sorting strings.
From Stdlib Require Import ZArith Lia.

Local Open Scope Z_scope.

(** ** models.py *)

(** Primary keys are the non negative integers of an [AutoField]. *)
Abbreviation pk := nat (only parsing).

(** Timestamps ([DateTimeField]) are points on the integer time line. *)
Abbreviation datetime := Z (only parsing).

(** [User = get_user_model()]: the framework's identity entity.  Only the
    user name is read by this application. *)
Module User.
Record t := mk { username : string }.
End User.

(** [class Category(PublishedAndDateModel)] *)
Module Category.
Record t := mk {
  is_published : bool;
  created_at : datetime;
  title : string;
  description : string;
  slug : string
}.
End Category.

(** [class Location(PublishedAndDateModel)] *)
Module Location.
Record t := mk {
  is_published : bool;
  created_at : datetime;
  name : string
}.
End Location.

(** [class Post(PublishedAndDateModel)]: [location] and [category] are the
    two nullable foreign keys ([null=True]). *)
Module Post.
Record t := mk {
  is_published : bool;
  created_at : datetime;
  author : pk;
  title : string;
  text : string;
  pub_date : datetime;
  location : option pk;
  category : option pk
}.

Definition set_location (l : option pk) (p : t) : t :=
  mk (is_published p) (created_at p) (author p) (title p) (text p)
     (pub_date p) l (category p).

Definition set_category (c : option pk) (p : t) : t :=
  mk (is_published p) (created_at p) (author p) (title p) (text p)
     (pub_date p) (location p) c.
End Post.

(** [class Comment(models.Model)] *)
Module Comment.
Record t := mk {
  text : string;
  post : pk;
  created_at : datetime;
  author : pk
}.

Definition set_text (s : string) (c : t) : t :=
  mk s (post c) (created_at c) (author c).
End Comment.

(** [on_delete] of a [ForeignKey]. *)
Inductive on_delete := CASCADE | SET_NULL.

Definition Post_author_on_delete : on_delete := CASCADE.
Definition Post_location_on_delete : on_delete := SET_NULL.
Definition Post_category_on_delete : on_delete := SET_NULL.
Definition Comment_post_on_delete : on_delete := CASCADE.
Definition Comment_author_on_delete : on_delete := CASCADE.

(** The persistent store: one table per model, keyed by primary key. *)
Record Store := mkStore {
  users : gmap pk User.t;
  categories : gmap pk Category.t;
  locations : gmap pk Location.t;
  posts : gmap pk Post.t;
  comments : gmap pk Comment.t
}.

Definition with_posts (ps : gmap pk Post.t) (db : Store) : Store :=
  mkStore (users db) (categories db) (locations db) ps (comments db).

Definition with_comments (cs : gmap pk Comment.t) (db : Store) : Store :=
  mkStore (users db) (categories db) (locations db) (posts db) cs.

(** ** The ORM operations the views call *)

Inductive Exception :=
  | Http404
  | DoesNotExist
  | MultipleObjectsReturned
  | ValueError
  | TypeError.

(** A computation that returns or raises. *)
Inductive Result (A : Type) :=
  | Raise (e : Exception)
  | Return (a : A).
Arguments Raise {A} e.
Arguments Return {A} a.

#[global] Instance Result_ret : MRet Result := fun _ a => Return a.
#[global] Instance Result_bind : MBind Result := fun _ _ f m =>
  match m with
  | Raise e => Raise e
  | Return a => f a
  end.

(** [Model.objects]: every row of a table. *)
Definition objects {A} (table : gmap pk A) : list (pk * A) := map_to_list table.

(** [select_related(...)] fetches the referenced rows in the same query and
    leaves the rows of the queryset as they are. *)
Definition select_related {A} (qs : list (pk * A)) : list (pk * A) := qs.

(** [QuerySet.get]: the single row of the queryset. *)
Definition QuerySet_get {A} (qs : list (pk * A)) : Result (pk * A) :=
  match qs with
  | [] => Raise DoesNotExist
  | [r] => Return r
  | _ => Raise MultipleObjectsReturned
  end.

(** [get_object_or_404(Model, **lookup)]: [DoesNotExist] becomes [Http404]. *)
Definition get_object_or_404 {A} (qs : list (pk * A)) : Result (pk * A) :=
  match QuerySet_get qs with
  | Raise DoesNotExist => Raise Http404
  | r => r
  end.

(** [get_object_or_404(Model, id=i)]: the lookup on the primary key is the
    table's own lookup. *)
Definition get_by_id_or_404 {A} (table : gmap pk A) (i : pk) : Result (pk * A) :=
  match table !! i with
  | Some row => Return (i, row)
  | None => Raise Http404
  end.

(** The lookup [category__is_published=True]: the join with the category
    table keeps a post only when it references a category row, and that row
    has the flag set. *)
Definition category__is_published (db : Store) (p : Post.t) : bool :=
  match Post.category p with
  | Some cid =>
      match categories db !! cid with
      | Some c => Category.is_published c
      | None => false
      end
  | None => false
  end.

(** The lookup [pub_date__lte=t]. *)
Definition pub_date__lte (t : datetime) (p : Post.t) : bool :=
  bool_decide (Post.pub_date p ≤ t).

(** [annotate(comment_count=Count('comments'))]: each post with the number
    of comments whose [post] is that post. *)
Definition Count_comments (db : Store) (pid : pk) : nat :=
  length (filter (λ r : pk * Comment.t, Comment.post r.2 = pid) (objects (comments db))).

Definition annotate_comment_count (db : Store) (qs : list (pk * Post.t))
  : list (pk * Post.t * nat) :=
  (λ r : pk * Post.t, (r.1, r.2, Count_comments db r.1)) <$> qs.

(** [order_by('-pub_date')]: newest first.  Rows with equal dates come in an
    order the database leaves open; the model fixes the merge sort's. *)
Definition newer_first (a b : pk * Post.t * nat) : Prop :=
  Post.pub_date b.1.2 ≤ Post.pub_date a.1.2.

#[global] Instance newer_first_dec a b : Decision (newer_first a b).
Proof. unfold newer_first. apply _. Defined.

Definition order_by_pub_date_desc (qs : list (pk * Post.t * nat))
  : list (pk * Post.t * nat) :=
  merge_sort newer_first qs.

(** [Meta.ordering = ('created_at',)] of [Comment]: oldest first. *)
Definition older_first (a b : pk * Comment.t) : Prop :=
  Comment.created_at a.2 ≤ Comment.created_at b.2.

#[global] Instance older_first_dec a b : Decision (older_first a b).
Proof. unfold older_first. apply _. Defined.

Definition Comment_Meta_ordering (qs : list (pk * Comment.t)) : list (pk * Comment.t) :=
  merge_sort older_first qs.

(** ** views.py *)

(** [get_posts_with_comments()], with [timezone.now()] as [now]. *)
Definition get_posts_with_comments (db : Store) (now : datetime)
  : list (pk * Post.t * nat) :=
  order_by_pub_date_desc
    (annotate_comment_count db
       (filter (λ r : pk * Post.t,
                  Post.is_published r.2 = true
                  ∧ category__is_published db r.2 = true
                  ∧ pub_date__lte now r.2 = true)
               (select_related (objects (posts db))))).

(** *** Requests and responses *)

(** [request.user]: the anonymous user, or a row of the user table. *)
Inductive RequestUser :=
  | AnonymousUser
  | Authenticated (uid : pk) (u : User.t).

Definition is_authenticated (u : RequestUser) : bool :=
  match u with
  | Authenticated _ _ => true
  | AnonymousUser => false
  end.

(** [request.user == row.author], the comparison of model instances: equal
    primary keys; the anonymous user equals no row. *)
Definition user_eq (u : RequestUser) (uid : pk) : bool :=
  match u with
  | Authenticated i _ => bool_decide (i = uid)
  | AnonymousUser => false
  end.

(** [comment.author = request.user]: the foreign key takes a user row and
    refuses anything else with [ValueError]. *)
Definition as_author (u : RequestUser) : Result pk :=
  match u with
  | Authenticated i _ => Return i
  | AnonymousUser => Raise ValueError
  end.

(** The value of the [page] query parameter as Python's [int()] reads it:
    absent, a string that denotes the integer [n], or any other string. *)
Inductive PageParam :=
  | page_absent
  | page_int (n : Z)
  | page_text (s : string).

Abbreviation QueryDict := (list (string * string)) (only parsing).

Record HttpRequest := mkRequest {
  user : RequestUser;
  method : string;
  GET_page : PageParam;
  POST : QueryDict;
  FILES : QueryDict
}.

(** [request.POST or None] *)
Definition or_None (d : QueryDict) : option QueryDict :=
  match d with
  | [] => None
  | _ => Some d
  end.

(** A form: whether it is bound to data, and the cleaned data when the data
    passes validation. *)
Record Form (A : Type) := mkForm {
  is_bound : bool;
  cleaned_data : option A
}.
Arguments mkForm {A} _ _.
Arguments is_bound {A} _.
Arguments cleaned_data {A} _.

(** The data of a form that is valid: bound, and cleaned without errors. *)
Definition validated {A} (f : Form A) : option A :=
  if is_bound f then cleaned_data f else None.

(** [form.is_valid()] *)
Definition is_valid {A} (f : Form A) : bool :=
  bool_decide (is_Some (validated f)).

(** A bound form whose data failed validation carries field errors. *)
Definition has_errors {A} (f : Form A) : bool :=
  is_bound f && negb (is_valid f).

(** The editable fields of a post, as [PostForm] cleans them. *)
Record PostFormData := mkPostFormData {
  f_is_published : bool;
  f_title : string;
  f_text : string;
  f_pub_date : datetime;
  f_location : option pk;
  f_category : option pk
}.

(** *** Pagination ([django.core.paginator]) *)

Record Page (A : Type) := mkPage {
  object_list : list A;
  number : Z;
  has_other_pages : bool
}.
Arguments mkPage {A} _ _ _.
Arguments object_list {A} _.
Arguments number {A} _.
Arguments has_other_pages {A} _.

Inductive InvalidPage := PageNotAnInteger | EmptyPage.

Section Paginator.
Context {A : Type}.
Variable queryset : list A.
Variable per_page : nat.

(** [Paginator.num_pages], with no orphans and an empty first page
    allowed: at least one page. *)
Definition num_pages : Z :=
  let hits := Z.max 1 (Z.of_nat (length queryset)) in
  (hits + Z.of_nat per_page - 1) `div` Z.of_nat per_page.

Definition validate_number (p : PageParam) : InvalidPage + Z :=
  match p with
  | page_int n =>
      if bool_decide (n < 1) then inl EmptyPage
      else if bool_decide (n > num_pages) then inl EmptyPage
      else inr n
  | page_absent | page_text _ => inl PageNotAnInteger
  end.

(** [Paginator.page] on a validated number: the slice [bottom:top] of
    the object list, [top] clipped to the count. *)
Definition Paginator_page (n : Z) : Page A :=
  let count := length queryset in
  let bottom := (Z.to_nat (n - 1) * per_page)%nat in
  let top := (bottom + per_page)%nat in
  let top := if bool_decide (count ≤ top)%nat then count else top in
  mkPage (take (top - bottom) (drop bottom queryset)) n
         (bool_decide (n > 1) || bool_decide (n < num_pages)).

(** [Paginator.page], which validates first. *)
Definition page (p : PageParam) : InvalidPage + Page A :=
  match validate_number p with
  | inl e => inl e
  | inr n => inr (Paginator_page n)
  end.

(** [Paginator.get_page]: a page for every input, the first one when
    the number is no integer, the last one when it is out of range. *)
Definition get_page (p : PageParam) : Page A :=
  match validate_number p with
  | inr n => Paginator_page n
  | inl PageNotAnInteger => Paginator_page 1
  | inl EmptyPage => Paginator_page num_pages
  end.
End Paginator.

(** [get_paginator(request, queryset, num_pages=10)] *)
Definition get_paginator {A} (request : HttpRequest) (queryset : list A)
    (num_pages : nat) : Page A :=
  get_page queryset num_pages (GET_page request).

(** *** Deletion ([Model.delete] and its collector) *)

(** The row references one of the deleted keys through the foreign key
    [ref]. *)
Definition references {A} (ref : A → option pk) (targets : gset pk) (row : A) : Prop :=
  match ref row with
  | Some t => t ∈ targets
  | None => False
  end.

#[global] Instance references_dec {A} (ref : A → option pk) targets row :
  Decision (references ref targets row).
Proof. unfold references. destruct (ref row); apply _. Defined.

(** What a foreign key's [on_delete] does to the table that holds it when
    the rows [targets] of the referenced table are deleted. *)
Definition on_delete_rows {A} (policy : on_delete) (ref : A → option pk)
    (set_null : A → A) (targets : gset pk) (table : gmap pk A) : gmap pk A :=
  match policy with
  | CASCADE => filter (λ r : pk * A, ¬ references ref targets r.2) table
  | SET_NULL =>
      (λ row, if decide (references ref targets row) then set_null row else row)
        <$> table
  end.

(** The keys a [CASCADE] removes, whose own dependents are collected next. *)
Definition cascaded {A} (policy : on_delete) (ref : A → option pk)
    (targets : gset pk) (table : gmap pk A) : gset pk :=
  match policy with
  | CASCADE => dom (filter (λ r : pk * A, references ref targets r.2) table)
  | SET_NULL => ∅
  end.

Definition delete_rows {A} (targets : gset pk) (table : gmap pk A) : gmap pk A :=
  filter (λ r : pk * A, r.1 ∉ targets) table.

(** Deleting the posts [ps]: the comments follow their [post] key. *)
Definition Post_delete_all (ps : gset pk) (db : Store) : Store :=
  with_posts (delete_rows ps (posts db))
    (with_comments
       (on_delete_rows Comment_post_on_delete (λ c, Some (Comment.post c)) id ps
          (comments db))
       db).

(** [post.delete()] *)
Definition Post_delete (pid : pk) (db : Store) : Store := Post_delete_all {[pid]} db.

(** [comment.delete()]: no model references a comment. *)
Definition Comment_delete (cid : pk) (db : Store) : Store :=
  with_comments (delete_rows {[cid]} (comments db)) db.

(** [category.delete()] *)
Definition Category_delete (cid : pk) (db : Store) : Store :=
  let ps := cascaded Post_category_on_delete Post.category {[cid]} (posts db) in
  let db1 :=
    with_posts
      (on_delete_rows Post_category_on_delete Post.category (Post.set_category None)
         {[cid]} (posts db))
      db in
  let db2 := Post_delete_all ps db1 in
  mkStore (users db2) (delete_rows {[cid]} (categories db2)) (locations db2)
          (posts db2) (comments db2).

(** [location.delete()] *)
Definition Location_delete (lid : pk) (db : Store) : Store :=
  let ps := cascaded Post_location_on_delete Post.location {[lid]} (posts db) in
  let db1 :=
    with_posts
      (on_delete_rows Post_location_on_delete Post.location (Post.set_location None)
         {[lid]} (posts db))
      db in
  let db2 := Post_delete_all ps db1 in
  mkStore (users db2) (categories db2) (delete_rows {[lid]} (locations db2))
          (posts db2) (comments db2).

(** [user.delete()]: the user's posts and comments follow their [author]
    key, and the comments of those posts follow the posts. *)
Definition User_delete (uid : pk) (db : Store) : Store :=
  let ps := cascaded Post_author_on_delete (λ p, Some (Post.author p)) {[uid]} (posts db) in
  let db1 :=
    with_posts
      (on_delete_rows Post_author_on_delete (λ p, Some (Post.author p)) id {[uid]}
         (posts db))
      (with_comments
         (on_delete_rows Comment_author_on_delete (λ c, Some (Comment.author c)) id
            {[uid]} (comments db))
         db) in
  let db2 := Post_delete_all ps db1 in
  mkStore (delete_rows {[uid]} (users db2)) (categories db2) (locations db2)
          (posts db2) (comments db2).

(** [Model.save()] of a new row: stored under a key not in use. *)
Definition new_pk {A} (table : gmap pk A) : pk := fresh (dom table).

Definition save_new {A} (row : A) (table : gmap pk A) : gmap pk A :=
  <[new_pk table := row]> table.

(** *** Responses *)

Inductive ContextValue :=
  | VPosts (l : list (pk * Post.t * nat))
  | VPage (p : Page (pk * Post.t * nat))
  | VBool (b : bool)
  | VPost (r : pk * Post.t)
  | VComments (l : list (pk * Comment.t))
  | VComment (r : pk * Comment.t)
  | VCommentForm (f : Form string)
  | VPostForm (f : Form PostFormData)
  | VUser (r : pk * User.t)
  | VCategory (r : pk * Category.t).

(** The named URLs the views redirect to; [url_login] is where
    [login_required] sends an anonymous requester. *)
Inductive Url :=
  | url_index
  | url_post_detail (post_id : pk)
  | url_profile (username : string)
  | url_login.

Inductive HttpResponse :=
  | render (template_name : string) (context : gmap string ContextValue)
  | redirect (to : Url).

(** A view reads the store, the request and the clock, and returns a
    response and the store it leaves, or raises. *)
Definition View : Type :=
  Store → HttpRequest → datetime → Result (HttpResponse * Store).

(** What [View.dispatch] answers: what the handler of the request's method
    returns or raises, or one of the two responses of [View] itself, each
    with the methods the view allows. *)
Inductive Dispatched :=
  | handler_result (r : Result (HttpResponse * Store))
  | options_response (allow : list string)
  | HttpResponseNotAllowed (allow : list string).

(** Python's binding of the call [handler(request, **kwargs)]: a method
    declared with [**kwargs] takes every keyword, a method declared
    [def handler(self, request)] takes none and the call raises
    [TypeError] before the body runs. *)
Definition bind_call (declares_kwargs : bool) (kwargs : list (string * pk))
    (body : View) : View := λ db request now,
  if declares_kwargs || bool_decide (kwargs = []) then body db request now
  else Raise TypeError.

(** [@login_required] *)
Definition login_required (view : View) : View := λ db request now,
  if is_authenticated (user request) then view db request now
  else mret (redirect url_login, db).

(** [str(request.user)], the argument of the profile URL. *)
Definition str_user (u : RequestUser) : string :=
  match u with
  | Authenticated _ row => User.username row
  | AnonymousUser => "AnonymousUser"
  end.

(** [ListView.paginate_queryset]: the generic list view answers "not
    found" to a page that is no number (other than [last]) or out of
    range. *)
Definition ListView_paginate_queryset {A} (queryset : list A) (page_size : nat)
    (request : HttpRequest) : Result (Page A) :=
  page_number ←
    match GET_page request with
    | page_absent => Return 1
    | page_int n => Return n
    | page_text s =>
        if bool_decide (s = "") then Return 1
        else if bool_decide (s = "last") then Return (num_pages queryset page_size)
        else Raise Http404
    end;
  match page queryset page_size (page_int page_number) with
  | inr p => Return p
  | inl _ => Raise Http404
  end.

(** [MultipleObjectMixin.get_context_data]; the entries [paginator] and
    [view] are left out. *)
Definition ListView_get_context_data (queryset : list (pk * Post.t * nat))
    (paginate_by : option nat) (context_object_name : string)
    (request : HttpRequest) : Result (gmap string ContextValue) :=
  match paginate_by with
  | Some page_size =>
      p ← ListView_paginate_queryset queryset page_size request;
      mret (<[context_object_name := VPosts (object_list p)]>
              {[ "page_obj" := VPage p;
                 "is_paginated" := VBool (has_other_pages p);
                 "object_list" := VPosts (object_list p) ]})
  | None =>
      mret (<[context_object_name := VPosts queryset]>
              {[ "is_paginated" := VBool false;
                 "object_list" := VPosts queryset ]})
  end.

(** [apply] the cleaned fields of a [PostForm] to an instance: the author
    and the creation time are not form fields. *)
Definition construct_post (d : PostFormData) (author : pk) (created_at : datetime)
    : Post.t :=
  Post.mk (f_is_published d) created_at author (f_title d) (f_text d)
          (f_pub_date d) (f_location d) (f_category d).

Section views.
(** [forms.py] is not among the sources: what [PostForm] and
    [CommentForm] accept, and the data they clean it to, are parameters
    of the views. *)
Variable PostForm_clean : Store → QueryDict → QueryDict → option PostFormData.
Variable CommentForm_clean : Store → QueryDict → option string.

(** [PostForm(data, files=files)] *)
Definition PostForm (db : Store) (data files : option QueryDict)
    : Form PostFormData :=
  mkForm (bool_decide (is_Some data ∨ is_Some files))
         (PostForm_clean db (default [] data) (default [] files)).

(** [CommentForm(data)] *)
Definition CommentForm (db : Store) (data : option QueryDict) : Form string :=
  mkForm (bool_decide (is_Some data)) (CommentForm_clean db (default [] data)).

(** **** [class IndexView(ListView)] *)

Definition IndexView_get_queryset (db : Store) (now : datetime) :=
  get_posts_with_comments db now.

Definition IndexView_get_context_data (db : Store) (request : HttpRequest)
    (now : datetime) : Result (gmap string ContextValue) :=
  context ←
    ListView_get_context_data (IndexView_get_queryset db now) (Some 10%nat)
      "page_obj" request;
  let posts := IndexView_get_queryset db now in
  let page_obj := get_paginator request posts 10 in
  mret (<["page_obj" := VPage page_obj]> context).

Definition IndexView_get : View := λ db request now,
  context ← IndexView_get_context_data db request now;
  mret (render "blog/index.html" context, db).

(** **** [class PostDetailView(FormMixin, DetailView)] *)

Definition PostDetailView_get_object (post_id : pk) (db : Store)
    (request : HttpRequest) (now : datetime) : Result (pk * Post.t) :=
  post ← get_by_id_or_404 (posts db) post_id;
  if negb (user_eq (user request) (Post.author post.2)) then
    get_object_or_404
      (filter (λ r : pk * Post.t,
                 r.1 = post.1
                 ∧ Post.is_published r.2 = true
                 ∧ category__is_published db r.2 = true
                 ∧ pub_date__lte now r.2 = true)
              (objects (posts db)))
  else mret post.

(** [FormMixin.get_form]: bound to the request's data on POST and PUT. *)
Definition PostDetailView_get_form (db : Store) (request : HttpRequest)
    : Form string :=
  if bool_decide (method request = "POST" ∨ method request = "PUT")
  then CommentForm db (Some (POST request))
  else CommentForm db None.

Definition PostDetailView_get_context_data (post_id : pk) (db : Store)
    (request : HttpRequest) (now : datetime) (object : pk * Post.t)
    (form : Form string) : Result (gmap string ContextValue) :=
  let context : gmap string ContextValue :=
    {[ "object" := VPost object; "post" := VPost object;
       "form" := VCommentForm form ]} in
  post ← PostDetailView_get_object post_id db request now;
  let comments :=
    Comment_Meta_ordering
      (filter (λ r : pk * Comment.t, Comment.post r.2 = post.1)
              (select_related (objects (comments db)))) in
  mret (<["comments" := VComments comments]> context).

(** [DetailView.get] *)
Definition PostDetailView_get (post_id : pk) : View := λ db request now,
  object ← PostDetailView_get_object post_id db request now;
  context ←
    PostDetailView_get_context_data post_id db request now object
      (PostDetailView_get_form db request);
  mret (render "blog/detail.html" context, db).

(** The body of [PostDetailView.post], with [self.kwargs['post_id']] as
    [post_id].  This is what the method would do once called; the call
    that [View.dispatch] makes is [PostDetailView_dispatch] below. *)
Definition PostDetailView_post (post_id : pk) : View := λ db request now,
  object ← PostDetailView_get_object post_id db request now;
  let form := PostDetailView_get_form db request in
  match validated form with
  | Some text =>
      author ← as_author (user request);
      let comment := Comment.mk text object.1 now author in
      mret (redirect (url_post_detail object.1),
            with_comments (save_new comment (comments db)) db)
  | None =>
      context ←
        PostDetailView_get_context_data post_id db request now object form;
      mret (render "blog/detail.html" context, db)
  end.

(** The methods for which [PostDetailView] has a handler:
    [View._allowed_methods]. *)
Definition PostDetailView_allowed_methods : list string :=
  ["GET"; "POST"; "HEAD"; "OPTIONS"].

(** Modelled from the spec: [urls.py] is not among the sources.  The detail
    page is routed as [/posts/{id}/] with the key captured under the
    keyword [post_id], the name that [pk_url_kwarg] reads and that
    [redirect('blog:post_detail', post_id=...)] passes.

    [View.dispatch] on that route: the handler named by the request's
    method (upper case, as the request object holds it) is called as
    [handler(request, post_id=post_id)].  [get], which also serves HEAD, is
    declared with [**kwargs]; [post] is declared [def post(self, request)]. *)
Definition PostDetailView_dispatch (post_id : pk) (db : Store)
    (request : HttpRequest) (now : datetime) : Dispatched :=
  let kwargs := [("post_id", post_id)] in
  if bool_decide (method request = "GET" ∨ method request = "HEAD") then
    handler_result
      (bind_call true kwargs (PostDetailView_get post_id) db request now)
  else if bool_decide (method request = "POST") then
    handler_result
      (bind_call false kwargs (PostDetailView_post post_id) db request now)
  else if bool_decide (method request = "OPTIONS") then
    options_response PostDetailView_allowed_methods
  else HttpResponseNotAllowed PostDetailView_allowed_methods.

(** **** [class CategoryPostsView(ListView)] *)

Definition CategoryPostsView_get_category (category_slug : string) (db : Store)
    : Result (pk * Category.t) :=
  get_object_or_404
    (filter (λ r : pk * Category.t,
               Category.slug r.2 = category_slug
               ∧ Category.is_published r.2 = true)
            (objects (categories db))).

Definition CategoryPostsView_get_queryset (category_slug : string) (db : Store)
    (now : datetime) : Result (list (pk * Post.t * nat)) :=
  category ← CategoryPostsView_get_category category_slug db;
  mret (filter (λ r : pk * Post.t * nat, Post.category r.1.2 = Some category.1)
               (get_posts_with_comments db now)).

Definition CategoryPostsView_get_context_data (category_slug : string)
    (db : Store) (request : HttpRequest) (now : datetime)
    (object_list : list (pk * Post.t * nat))
    : Result (gmap string ContextValue) :=
  context ← ListView_get_context_data object_list None "page_obj" request;
  posts ← CategoryPostsView_get_queryset category_slug db now;
  let page_obj := get_paginator request posts 10 in
  let context := <["page_obj" := VPage page_obj]> context in
  category ← CategoryPostsView_get_category category_slug db;
  mret (<["category" := VCategory category]> context).

Definition CategoryPostsView_get (category_slug : string) : View :=
  λ db request now,
  object_list ← CategoryPostsView_get_queryset category_slug db now;
  context ←
    CategoryPostsView_get_context_data category_slug db request now object_list;
  mret (render "blog/category.html" context, db).

(** **** The function views *)

(** The body of [create_post]. *)
Definition create_post__wrapped : View := λ db request now,
  let template := "blog/create.html" in
  let form := PostForm db (or_None (POST request)) (or_None (FILES request)) in
  match validated form with
  | Some cleaned =>
      author ← as_author (user request);
      let post := construct_post cleaned author now in
      mret (redirect (url_profile (str_user (user request))),
            with_posts (save_new post (posts db)) db)
  | None =>
      mret (render template {[ "form" := VPostForm form ]}, db)
  end.

Definition create_post : View := login_required create_post__wrapped.

(** The body of [edit_post]. *)
Definition edit_post__wrapped (post_id : pk) : View := λ db request now,
  let template := "blog/create.html" in
  post ← get_by_id_or_404 (posts db) post_id;
  if negb (user_eq (user request) (Post.author post.2)) then
    mret (redirect (url_post_detail post_id), db)
  else
    let form := PostForm db (or_None (POST request)) None in
    match validated form with
    | Some cleaned =>
        let post' :=
          construct_post cleaned (Post.author post.2) (Post.created_at post.2) in
        mret (redirect (url_post_detail post_id),
              with_posts (<[post.1 := post']> (posts db)) db)
    | None =>
        mret (render template {[ "form" := VPostForm form ]}, db)
    end.

Definition edit_post (post_id : pk) : View :=
  login_required (edit_post__wrapped post_id).

(** The body of [delete_post]. *)
Definition delete_post__wrapped (post_id : pk) : View := λ db request now,
  let template := "blog/create.html" in
  post ← get_by_id_or_404 (posts db) post_id;
  if negb (user_eq (user request) (Post.author post.2)) then
    mret (redirect (url_post_detail post_id), db)
  else
    let form := PostForm db (or_None (POST request)) None in
    if bool_decide (method request = "POST") then
      mret (redirect url_index, Post_delete post.1 db)
    else
      mret (render template {[ "form" := VPostForm form ]}, db).

Definition delete_post (post_id : pk) : View :=
  login_required (delete_post__wrapped post_id).

(** The body of [add_comment]. *)
Definition add_comment__wrapped (post_id : pk) : View := λ db request now,
  post ← get_by_id_or_404 (posts db) post_id;
  let form := CommentForm db (or_None (POST request)) in
  match validated form with
  | Some text =>
      author ← as_author (user request);
      let comment := Comment.mk text post.1 now author in
      mret (redirect (url_post_detail post_id),
            with_comments (save_new comment (comments db)) db)
  | None =>
      mret (redirect (url_post_detail post_id), db)
  end.

Definition add_comment (post_id : pk) : View :=
  login_required (add_comment__wrapped post_id).

(** The body of [edit_comment]. *)
Definition edit_comment__wrapped (post_id comment_id : pk) : View :=
  λ db request now,
  let template := "blog/comment.html" in
  comment ← get_by_id_or_404 (comments db) comment_id;
  if negb (user_eq (user request) (Comment.author comment.2)) then
    mret (redirect (url_post_detail post_id), db)
  else
    let form := CommentForm db (or_None (POST request)) in
    match validated form with
    | Some text =>
        mret (redirect (url_post_detail post_id),
              with_comments
                (<[comment.1 := Comment.set_text text comment.2]> (comments db))
                db)
    | None =>
        mret (render template
                {[ "comment" := VComment comment; "form" := VCommentForm form ]},
              db)
    end.

Definition edit_comment (post_id comment_id : pk) : View :=
  login_required (edit_comment__wrapped post_id comment_id).

(** The body of [delete_comment]. *)
Definition delete_comment__wrapped (post_id comment_id : pk) : View :=
  λ db request now,
  let template := "blog/comment.html" in
  comment ← get_by_id_or_404 (comments db) comment_id;
  if negb (user_eq (user request) (Comment.author comment.2)) then
    mret (redirect (url_post_detail post_id), db)
  else if bool_decide (method request = "POST") then
    mret (redirect (url_post_detail post_id), Comment_delete comment.1 db)
  else
    mret (render template {[ "comment" := VComment comment ]}, db).

Definition delete_comment (post_id comment_id : pk) : View :=
  login_required (delete_comment__wrapped post_id comment_id).

(** [profile(request, username)] *)
Definition profile (username : string) : View := λ db request now,
  let template := "blog/profile.html" in
  profile_user ←
    get_object_or_404
      (filter (λ r : pk * User.t, User.username r.2 = username)
              (objects (users db)));
  let posts := select_related (objects (posts db)) in
  let posts :=
    if user_eq (user request) profile_user.1 then
      filter (λ r : pk * Post.t, Post.author r.2 = profile_user.1) posts
    else
      filter (λ r : pk * Post.t,
                Post.author r.2 = profile_user.1
                ∧ Post.is_published r.2 = true
                ∧ category__is_published db r.2 = true
                ∧ pub_date__lte now r.2 = true)
             posts in
  let posts := order_by_pub_date_desc (annotate_comment_count db posts) in
  let page_obj := get_paginator request posts 10 in
  mret (render template
          {[ "profile" := VUser profile_user; "page_obj" := VPage page_obj ]},
        db).
End views.

(** The posts a response lists: the [page_obj] of the rendered context. *)
Definition page_obj_of (r : Result (HttpResponse * Store))
    : list (pk * Post.t * nat) :=
  match r with
  | Return (render _ context, _) =>
      match context !! "page_obj" with
      | Some (VPage p) => object_list p
      | _ => []
      end
  | _ => []
  end.

(** The post [pid], with row [p], is on the page the response shows. *)
Definition shows (r : Result (HttpResponse * Store)) (pid : pk) (p : Post.t) : Prop :=
  ∃ n, (pid, p, n) ∈ page_obj_of r.

(** The same request asking for another page. *)
Definition with_page (q : PageParam) (request : HttpRequest) : HttpRequest :=
  mkRequest (user request) (method request) q (POST request) (FILES request).

(** A post is listed by a view for a requester when some page of the
    listing shows it. *)
Definition listed (view : View) (db : Store) (request : HttpRequest)
    (now : datetime) (pid : pk) (p : Post.t) : Prop :=
  ∃ q, shows (view db (with_page q request) now) pid p.

(** ** The visibility predicate, in the specification's words *)

(** [is_published = true AND category.is_published = true AND
    pub_date <= now]: the post's flag is set, the post has a category
    whose flag is set, and the publish date has come. *)
Definition visibility_predicate (db : Store) (now : datetime) (p : Post.t) : Prop :=
  Post.is_published p = true
  ∧ (∃ cid c, Post.category p = Some cid
              ∧ categories db !! cid = Some c
              ∧ Category.is_published c = true)
  ∧ Post.pub_date p ≤ now.

(** The filter of the views as one boolean. *)
Definition passes_filter (db : Store) (now : datetime) (p : Post.t) : bool :=
  bool_decide (Post.is_published p = true
               ∧ category__is_published db p = true
               ∧ pub_date__lte now p = true).

(** ** Referential integrity *)

(** Every foreign key of the row names a row that is there. *)
Definition post_references_resolve (db : Store) (p : Post.t) : Prop :=
  is_Some (users db !! Post.author p)
  ∧ match Post.category p with
    | Some cid => is_Some (categories db !! cid)
    | None => True
    end
  ∧ match Post.location p with
    | Some lid => is_Some (locations db !! lid)
    | None => True
    end.

Definition comment_references_resolve (db : Store) (c : Comment.t) : Prop :=
  is_Some (posts db !! Comment.post c)
  ∧ is_Some (users db !! Comment.author c).

(** The store has no dangling reference. *)
Definition referential_integrity (db : Store) : Prop :=
  map_Forall (λ _ p, post_references_resolve db p) (posts db)
  ∧ map_Forall (λ _ c, comment_references_resolve db c) (comments db).

(** ** A small store, for concrete runs *)

Module Sample.
Definition ann : User.t := User.mk "ann".
Definition bob : User.t := User.mk "bob".

Definition travel : Category.t := Category.mk true 0 "Travel" "On the road" "travel".
Definition drafts : Category.t := Category.mk false 0 "Drafts" "Not yet" "drafts".

(** Published, in a published category, dated in the past. *)
Definition fjords : Post.t :=
  Post.mk true 1 1 "Fjords" "Deep water" 5 (Some 1%nat) (Some 1%nat).
(** Scheduled for later. *)
Definition scheduled : Post.t :=
  Post.mk true 1 1 "Glaciers" "Cold" 20 None (Some 1%nat).
(** Published and dated in the past, without a category. *)
Definition loose : Post.t :=
  Post.mk true 1 1 "Notes" "Unsorted" 5 None None.
(** Hidden by its own flag. *)
Definition hidden : Post.t :=
  Post.mk false 1 2 "Secret" "Hush" 5 None (Some 1%nat).

Definition late_comment : Comment.t := Comment.mk "Second!" 1 8 2.
Definition early_comment : Comment.t := Comment.mk "First!" 1 6 1.

Definition db : Store :=
  mkStore
    {[ 1%nat := ann; 2%nat := bob ]}
    {[ 1%nat := travel; 2%nat := drafts ]}
    {[ 1%nat := Location.mk true 0 "Oslo" ]}
    {[ 1%nat := fjords; 2%nat := scheduled; 3%nat := loose; 4%nat := hidden ]}
    {[ 1%nat := late_comment; 2%nat := early_comment ]}.

(** A comment form that requires a non empty [text]. *)
Definition CommentForm_clean (_ : Store) (data : QueryDict) : option string :=
  match data with
  | [(key, value)] =>
      if bool_decide (key = "text" ∧ value ≠ "") then Some value else None
  | _ => None
  end.

(** A post form that requires a non empty [title]. *)
Definition PostForm_clean (_ : Store) (data files : QueryDict)
    : option PostFormData :=
  match data with
  | [(key, value)] =>
      if bool_decide (key = "title" ∧ value ≠ "")
      then Some (mkPostFormData true value "" 0 None None)
      else None
  | _ => None
  end.

Definition get (u : RequestUser) : HttpRequest :=
  mkRequest u "GET" page_absent [] [].

Definition post (u : RequestUser) (data : QueryDict) : HttpRequest :=
  mkRequest u "POST" page_absent data [].

Definition as_ann : RequestUser := Authenticated 1 ann.
Definition as_bob : RequestUser := Authenticated 2 bob.
End Sample.

(** ** Querysets *)

Lemma category__is_published_true db p :
  category__is_published db p = true ↔
  ∃ cid c, Post.category p = Some cid
           ∧ categories db !! cid = Some c
           ∧ Category.is_published c = true.
Proof.
  unfold category__is_published. split.
  - destruct (Post.category p) as [cid|]; [|done].
    destruct (categories db !! cid) as [c|] eqn:Hc; [|done].
    intros Hp. by exists cid, c.
  - intros (cid & c & -> & -> & Hp). done.
Qed.

Lemma pub_date__lte_true now p :
  pub_date__lte now p = true ↔ Post.pub_date p ≤ now.
Proof. unfold pub_date__lte. apply bool_decide_eq_true. Qed.

(** The three lookups of the views' filter are the predicate. *)
Lemma filter_is_visibility_predicate db now p :
  Post.is_published p = true
  ∧ category__is_published db p = true
  ∧ pub_date__lte now p = true
  ↔ visibility_predicate db now p.
Proof.
  unfold visibility_predicate.
  by rewrite category__is_published_true, pub_date__lte_true.
Qed.

Lemma elem_of_objects {A} (table : gmap nat A) i row :
  (i, row) ∈ objects table ↔ table !! i = Some row.
Proof. apply elem_of_map_to_list. Qed.

Lemma elem_of_order_by_pub_date_desc qs r :
  r ∈ order_by_pub_date_desc qs ↔ r ∈ qs.
Proof. unfold order_by_pub_date_desc. by rewrite merge_sort_Permutation. Qed.

Lemma elem_of_annotate_comment_count db qs pid p n :
  (pid, p, n) ∈ annotate_comment_count db qs ↔
  (pid, p) ∈ qs ∧ n = Count_comments db pid.
Proof.
  unfold annotate_comment_count. rewrite list_elem_of_fmap. split.
  - intros ([i row] & [= -> -> ->] & Hin). done.
  - intros [Hin ->]. by exists (pid, p).
Qed.

Lemma elem_of_get_posts_with_comments db now pid p n :
  (pid, p, n) ∈ get_posts_with_comments db now ↔
  posts db !! pid = Some p
  ∧ visibility_predicate db now p
  ∧ n = Count_comments db pid.
Proof.
  unfold get_posts_with_comments, select_related.
  rewrite elem_of_order_by_pub_date_desc, elem_of_annotate_comment_count,
    list_elem_of_filter, elem_of_objects. simpl.
  rewrite filter_is_visibility_predicate. tauto.
Qed.

(** A duplicate free list whose members all equal [x] is empty or [[x]]. *)
Lemma NoDup_all_eq {A} (l : list A) (x : A) :
  NoDup l → (∀ y, y ∈ l → y = x) → l = [] ∨ l = [x].
Proof.
  intros Hnd Hall. destruct l as [|a [|b l]]; [by left| |].
  - right. f_equal. apply Hall. by left.
  - exfalso. apply NoDup_cons in Hnd as [Hnotin _]. apply Hnotin.
    rewrite (Hall a), (Hall b); [by left| |]; set_solver.
Qed.

(** [get] on a filter that exactly one row of the table passes. *)
Lemma get_object_or_404_unique {A} (table : gmap nat A)
    (P : nat * A → Prop) `{!∀ r, Decision (P r)} i row :
  table !! i = Some row → P (i, row) →
  (∀ j row', table !! j = Some row' → P (j, row') → j = i) →
  get_object_or_404 (filter P (objects table)) = Return (i, row).
Proof.
  intros Hi HP Huniq.
  assert (Hin : (i, row) ∈ filter P (objects table)).
  { apply list_elem_of_filter. split; [done|]. by apply elem_of_objects. }
  destruct (NoDup_all_eq (filter P (objects table)) (i, row)) as [Hnil | Hone].
  - apply NoDup_filter, NoDup_map_to_list.
  - intros [j row'] [HP' Hj%elem_of_objects]%list_elem_of_filter.
    assert (j = i) as -> by eauto. congruence.
  - rewrite Hnil in Hin. by apply elem_of_nil in Hin.
  - unfold get_object_or_404. by rewrite Hone.
Qed.

(** [get] on a filter that no row of the table passes. *)
Lemma get_object_or_404_none {A} (table : gmap nat A)
    (P : nat * A → Prop) `{!∀ r, Decision (P r)} :
  (∀ j row, table !! j = Some row → ¬ P (j, row)) →
  get_object_or_404 (filter P (objects table)) = Raise Http404.
Proof.
  intros Hnone.
  destruct (filter P (objects table)) as [|[j row] l] eqn:Hf; [done|].
  assert (Hin : (j, row) ∈ filter P (objects table)) by (rewrite Hf; by left).
  apply list_elem_of_filter in Hin as [HP Hj%elem_of_objects].
  by destruct (Hnone j row).
Qed.

(** ** Pagination *)

Section pagination.
Context {A : Type}.
Implicit Types (l : list A) (per : nat) (n : Z) (x : A).

(** A page holds rows of the object list only. *)
Lemma Paginator_page_subseteq l per n x :
  x ∈ object_list (Paginator_page l per n) → x ∈ l.
Proof.
  unfold Paginator_page. simpl. intros Hin.
  by apply subseteq_take, subseteq_drop in Hin.
Qed.

Lemma get_page_subseteq l per q x :
  x ∈ object_list (get_page l per q) → x ∈ l.
Proof.
  unfold get_page.
  destruct (validate_number l per q) as [[]|n]; apply Paginator_page_subseteq.
Qed.

(** The row at index [i] is on page [i / per + 1]. *)
Lemma Paginator_page_lookup l per i x :
  (0 < per)%nat → l !! i = Some x →
  x ∈ object_list (Paginator_page l per (Z.of_nat (i / per) + 1)).
Proof.
  intros Hper Hi. unfold Paginator_page. simpl.
  replace (Z.to_nat (Z.of_nat (i / per) + 1 - 1)) with (i / per)%nat by lia.
  pose proof (lookup_lt_Some _ _ _ Hi) as Hlen.
  pose proof (Nat.Div0.mul_div_le i per) as Hlo.
  pose proof (Nat.mul_succ_div_gt i per) as Hhi.
  set (bottom := (i / per * per)%nat).
  assert (bottom ≤ i < bottom + per)%nat as [Hb1 Hb2] by (unfold bottom; lia).
  apply elem_of_take. exists (i - bottom)%nat. split.
  - rewrite lookup_drop. by replace (bottom + (i - bottom))%nat with i by lia.
  - case_bool_decide; lia.
Qed.

Lemma num_pages_ge l per i :
  (0 < per)%nat → (i < length l)%nat →
  1 ≤ Z.of_nat (i / per) + 1 ≤ num_pages l per.
Proof.
  intros Hper Hi. split; [lia|]. unfold num_pages.
  pose proof (Nat.Div0.mul_div_le i per) as Hlo.
  apply Z.div_le_lower_bound; [lia|]. nia.
Qed.

(** A number in range is the page that [validate_number] returns. *)
Lemma validate_number_in_range l per n :
  1 ≤ n ≤ num_pages l per → validate_number l per (page_int n) = inr n.
Proof.
  intros [H1 H2]. unfold validate_number.
  rewrite !bool_decide_eq_false_2; [done|lia|lia].
Qed.

(** Every row of the object list is on one of the pages in range. *)
Lemma Paginator_covers l per x :
  (0 < per)%nat → x ∈ l →
  ∃ n, 1 ≤ n ≤ num_pages l per
       ∧ x ∈ object_list (Paginator_page l per n).
Proof.
  intros Hper [i Hi]%list_elem_of_lookup.
  exists (Z.of_nat (i / per) + 1). split.
  - apply num_pages_ge; [done|]. by eapply lookup_lt_Some.
  - by apply Paginator_page_lookup.
Qed.

Lemma get_paginator_subseteq request l per x :
  x ∈ object_list (get_paginator request l per) → x ∈ l.
Proof. apply get_page_subseteq. Qed.

Lemma get_paginator_in_range request l per n :
  1 ≤ n ≤ num_pages l per →
  get_paginator (with_page (page_int n) request) l per = Paginator_page l per n.
Proof.
  intros Hn. unfold get_paginator, with_page, get_page. cbn [GET_page].
  by rewrite validate_number_in_range.
Qed.

Lemma ListView_paginate_queryset_in_range request l per n :
  1 ≤ n ≤ num_pages l per →
  ListView_paginate_queryset l per (with_page (page_int n) request)
  = Return (Paginator_page l per n).
Proof.
  intros Hn. unfold ListView_paginate_queryset, with_page, page.
  cbn [GET_page mbind Result_bind]. by rewrite validate_number_in_range.
Qed.
End pagination.

(** ** Listings *)

Lemma shows_page_obj template context db' pg pid p :
  context !! "page_obj" = Some (VPage pg) →
  shows (Return (render template context, db')) pid p
  ↔ ∃ n, (pid, p, n) ∈ object_list pg.
Proof. intros Hpg. unfold shows, page_obj_of. by rewrite Hpg. Qed.

Lemma shows_Raise e pid p : ¬ shows (Raise e) pid p.
Proof. intros [n Hn]. simpl in Hn. by apply elem_of_nil in Hn. Qed.

(** A queryset shown ten to a page lists exactly its rows. *)
Lemma listed_queryset (view : View) db request now
    (qs : list (nat * Post.t * nat)) (pid : nat) (p : Post.t) :
  (∀ q, shows (view db (with_page q request) now) pid p →
        ∃ n, (pid, p, n) ∈ object_list (get_paginator (with_page q request) qs 10)) →
  (∀ m, 1 ≤ m ≤ num_pages qs 10 →
        ∀ n, (pid, p, n) ∈ object_list (Paginator_page qs 10 m) →
             shows (view db (with_page (page_int m) request) now) pid p) →
  listed view db request now pid p ↔ ∃ n, (pid, p, n) ∈ qs.
Proof.
  intros Hsub Hsup. unfold listed. split.
  - intros [q [n Hn]%Hsub]. exists n. by eapply get_paginator_subseteq.
  - intros [n Hn]. destruct (Paginator_covers qs 10 (pid, p, n)) as (m & Hm & Hin);
      [lia|done|].
    exists (page_int m). by eapply Hsup.
Qed.

(** The index lists the posts of [get_posts_with_comments]. *)
Lemma listed_IndexView db request now pid p :
  listed IndexView_get db request now pid p
  ↔ ∃ n, (pid, p, n) ∈ get_posts_with_comments db now.
Proof.
  apply listed_queryset.
  - intros q. unfold IndexView_get, IndexView_get_context_data.
    destruct (ListView_get_context_data _ _ _ _) as [e|context]; simpl.
    + intros []%shows_Raise.
    + rewrite shows_page_obj; [done|]. apply lookup_insert_eq.
  - intros m Hm n Hn. unfold IndexView_get, IndexView_get_context_data,
      ListView_get_context_data, IndexView_get_queryset.
    rewrite ListView_paginate_queryset_in_range by done. simpl.
    rewrite shows_page_obj; [|apply lookup_insert_eq].
    rewrite get_paginator_in_range by done. eauto.
Qed.

(** The category page lists the posts of [get_posts_with_comments] that
    are in the category. *)
Lemma listed_CategoryPostsView slug db request now cid c pid p :
  CategoryPostsView_get_category slug db = Return (cid, c) →
  listed (CategoryPostsView_get slug) db request now pid p
  ↔ ∃ n, (pid, p, n) ∈
           filter (λ r : nat * Post.t * nat, Post.category r.1.2 = Some cid)
                  (get_posts_with_comments db now).
Proof.
  intros Hcat.
  assert (Hview : ∀ q,
    CategoryPostsView_get slug db (with_page q request) now =
    Return (render "blog/category.html"
      (<["category" := VCategory (cid, c)]>
        (<["page_obj" := VPage (get_paginator (with_page q request)
            (filter (λ r : nat * Post.t * nat, Post.category r.1.2 = Some cid)
                    (get_posts_with_comments db now)) 10)]>
          (<["page_obj" := VPosts
               (filter (λ r : nat * Post.t * nat, Post.category r.1.2 = Some cid)
                       (get_posts_with_comments db now))]>
             {[ "is_paginated" := VBool false;
                "object_list" := VPosts
                  (filter (λ r : nat * Post.t * nat, Post.category r.1.2 = Some cid)
                          (get_posts_with_comments db now)) ]}))), db)).
  { intros q. unfold CategoryPostsView_get, CategoryPostsView_get_context_data,
      CategoryPostsView_get_queryset. rewrite Hcat. done. }
  apply listed_queryset.
  - intros q. rewrite Hview, shows_page_obj; [done|].
    rewrite lookup_insert_ne by done. apply lookup_insert_eq.
  - intros m Hm n Hn. rewrite Hview, shows_page_obj;
      [|rewrite lookup_insert_ne by done; apply lookup_insert_eq].
    rewrite get_paginator_in_range by done. eauto.
Qed.

(** The rows of the two querysets of [profile]. *)
Lemma elem_of_profile_public_posts db now uid pid p n :
  (pid, p, n) ∈
    order_by_pub_date_desc
      (annotate_comment_count db
         (filter (λ r : nat * Post.t,
                    Post.author r.2 = uid
                    ∧ Post.is_published r.2 = true
                    ∧ category__is_published db r.2 = true
                    ∧ pub_date__lte now r.2 = true)
                 (select_related (objects (posts db)))))
  ↔ posts db !! pid = Some p
    ∧ Post.author p = uid
    ∧ visibility_predicate db now p
    ∧ n = Count_comments db pid.
Proof.
  unfold select_related.
  rewrite elem_of_order_by_pub_date_desc, elem_of_annotate_comment_count,
    list_elem_of_filter, elem_of_objects. simpl.
  rewrite filter_is_visibility_predicate. tauto.
Qed.

Lemma elem_of_profile_own_posts db uid pid p n :
  (pid, p, n) ∈
    order_by_pub_date_desc
      (annotate_comment_count db
         (filter (λ r : nat * Post.t, Post.author r.2 = uid)
                 (select_related (objects (posts db)))))
  ↔ posts db !! pid = Some p
    ∧ Post.author p = uid
    ∧ n = Count_comments db pid.
Proof.
  unfold select_related.
  rewrite elem_of_order_by_pub_date_desc, elem_of_annotate_comment_count,
    list_elem_of_filter, elem_of_objects. simpl. tauto.
Qed.

(** [profile] renders one page of the queryset it builds. *)
Lemma profile_Return username db request now uid u :
  get_object_or_404
    (filter (λ r : nat * User.t, User.username r.2 = username) (objects (users db)))
  = Return (uid, u) →
  profile username db request now =
  Return
    (render "blog/profile.html"
       {[ "profile" := VUser (uid, u);
          "page_obj" :=
            VPage
              (get_paginator request
                 (order_by_pub_date_desc
                    (annotate_comment_count db
                       (if user_eq (user request) uid then
                          filter (λ r : nat * Post.t, Post.author r.2 = uid)
                                 (select_related (objects (posts db)))
                        else
                          filter (λ r : nat * Post.t,
                                    Post.author r.2 = uid
                                    ∧ Post.is_published r.2 = true
                                    ∧ category__is_published db r.2 = true
                                    ∧ pub_date__lte now r.2 = true)
                                 (select_related (objects (posts db))))))
                 10) ]},
     db).
Proof. intros Huser. unfold profile. rewrite Huser. done. Qed.

Lemma listed_profile username db request now uid u pid p :
  get_object_or_404
    (filter (λ r : nat * User.t, User.username r.2 = username) (objects (users db)))
  = Return (uid, u) →
  listed (profile username) db request now pid p
  ↔ ∃ n, (pid, p, n) ∈
      order_by_pub_date_desc
        (annotate_comment_count db
           (if user_eq (user request) uid then
              filter (λ r : nat * Post.t, Post.author r.2 = uid)
                     (select_related (objects (posts db)))
            else
              filter (λ r : nat * Post.t,
                        Post.author r.2 = uid
                        ∧ Post.is_published r.2 = true
                        ∧ category__is_published db r.2 = true
                        ∧ pub_date__lte now r.2 = true)
                     (select_related (objects (posts db))))).
Proof.
  intros Huser. apply listed_queryset.
  - intros q. rewrite (profile_Return _ _ _ _ _ _ Huser), shows_page_obj; done.
  - intros m Hm n Hn.
    rewrite (profile_Return _ _ _ _ _ _ Huser), shows_page_obj; [|done].
    unfold with_page at 2. cbn [user].
    rewrite get_paginator_in_range by done. eauto.
Qed.

(** ** The detail view *)

Lemma passes_filter_true db now p :
  passes_filter db now p = true ↔ visibility_predicate db now p.
Proof.
  unfold passes_filter. rewrite bool_decide_eq_true.
  apply filter_is_visibility_predicate.
Qed.

Lemma passes_filter_false db now p :
  passes_filter db now p = false ↔ ¬ visibility_predicate db now p.
Proof.
  rewrite <- passes_filter_true. by destruct (passes_filter db now p).
Qed.

(** [get_object] by cases: the author gets the post as it is, anybody else
    only when it passes the filter. *)
Lemma PostDetailView_get_object_cases post_id db request now :
  PostDetailView_get_object post_id db request now =
  match posts db !! post_id with
  | None => Raise Http404
  | Some p =>
      if user_eq (user request) (Post.author p) then Return (post_id, p)
      else if passes_filter db now p then Return (post_id, p)
      else Raise Http404
  end.
Proof.
  unfold PostDetailView_get_object, get_by_id_or_404.
  destruct (posts db !! post_id) as [p|] eqn:Hp; [|done]. simpl.
  destruct (user_eq (user request) (Post.author p)); [done|]. simpl.
  destruct (passes_filter db now p) eqn:Hvis.
  - apply bool_decide_eq_true in Hvis.
    apply (get_object_or_404_unique _ _ post_id p); [done|done|].
    intros j row' _ [Heq _]. exact Heq.
  - apply bool_decide_eq_false in Hvis.
    apply get_object_or_404_none. intros j row' Hj [Heq Hrest].
    simpl in Heq, Hrest. subst j. assert (row' = p) as -> by congruence. done.
Qed.

(** The detail page of a post that [get_object] resolves. *)
Lemma PostDetailView_get_context_data_Return post_id db request now object form r :
  PostDetailView_get_object post_id db request now = Return r →
  PostDetailView_get_context_data post_id db request now object form =
  Return
    (<["comments" :=
         VComments
           (Comment_Meta_ordering
              (filter (λ c : nat * Comment.t, Comment.post c.2 = r.1)
                      (select_related (objects (comments db)))))]>
       {[ "object" := VPost object; "post" := VPost object;
          "form" := VCommentForm form ]}).
Proof.
  intros Hobj. unfold PostDetailView_get_context_data. by rewrite Hobj.
Qed.

Section detail_view.
Variable CommentForm_clean : Store → list (string * string) → option string.

Lemma PostDetailView_get_Return post_id db request now r :
  PostDetailView_get_object post_id db request now = Return r →
  PostDetailView_get CommentForm_clean post_id db request now =
  Return
    (render "blog/detail.html"
       (<["comments" :=
            VComments
              (Comment_Meta_ordering
                 (filter (λ c : nat * Comment.t, Comment.post c.2 = r.1)
                         (select_related (objects (comments db)))))]>
          {[ "object" := VPost r; "post" := VPost r;
             "form" := VCommentForm
                         (PostDetailView_get_form CommentForm_clean db request) ]}),
     db).
Proof.
  intros Hobj. unfold PostDetailView_get. rewrite Hobj. simpl.
  by rewrite (PostDetailView_get_context_data_Return _ _ _ _ _ _ _ Hobj).
Qed.

Lemma PostDetailView_get_Raise post_id db request now e :
  PostDetailView_get_object post_id db request now = Raise e →
  PostDetailView_get CommentForm_clean post_id db request now = Raise e.
Proof. intros Hobj. unfold PostDetailView_get. by rewrite Hobj. Qed.

Lemma PostDetailView_post_Raise post_id db request now e :
  PostDetailView_get_object post_id db request now = Raise e →
  PostDetailView_post CommentForm_clean post_id db request now = Raise e.
Proof. intros Hobj. unfold PostDetailView_post. by rewrite Hobj. Qed.
End detail_view.

Lemma PostDetailView_get_object_id post_id db request now r :
  PostDetailView_get_object post_id db request now = Return r →
  r.1 = post_id ∧ posts db !! post_id = Some r.2.
Proof.
  rewrite PostDetailView_get_object_cases.
  destruct (posts db !! post_id) as [p|]; [|done].
  destruct (user_eq _ _); [by intros [= <-]|].
  destruct (passes_filter _ _ _); [by intros [= <-]|done].
Qed.

(** The lookup of a user by a name that only that user has. *)
Lemma get_User_by_username db uid u :
  users db !! uid = Some u →
  (∀ uid' u', users db !! uid' = Some u' →
              User.username u' = User.username u → uid' = uid) →
  get_object_or_404
    (filter (λ r : nat * User.t, User.username r.2 = User.username u)
            (objects (users db)))
  = Return (uid, u).
Proof.
  intros Hu Huniq. apply get_object_or_404_unique; [done|done|].
  intros j row' Hj Hname. by eapply Huniq.
Qed.

(** ** The public listings *)

(** Claim C1.  For every post and every request time [now], a post is on
    some page of a public listing exactly when it satisfies
    [is_published = true AND category.is_published = true AND
    pub_date <= now]: in the index among all posts, in the page of a
    category among the posts of that category, in a profile seen by
    somebody else among the posts of that user.  The three listings apply
    the one predicate. *)
Theorem public_listings_apply_the_predicate db request now (pid : nat) (p : Post.t) :
  (listed IndexView_get db request now pid p
   ↔ posts db !! pid = Some p ∧ visibility_predicate db now p)
  ∧ (∀ slug cid c,
       CategoryPostsView_get_category slug db = Return (cid, c) →
       listed (CategoryPostsView_get slug) db request now pid p
       ↔ posts db !! pid = Some p
         ∧ Post.category p = Some cid
         ∧ visibility_predicate db now p)
  ∧ (∀ username uid u,
       get_object_or_404
         (filter (λ r : nat * User.t, User.username r.2 = username)
                 (objects (users db)))
       = Return (uid, u) →
       user_eq (user request) uid = false →
       listed (profile username) db request now pid p
       ↔ posts db !! pid = Some p
         ∧ Post.author p = uid
         ∧ visibility_predicate db now p).
Proof.
  split; [|split].
  - rewrite listed_IndexView. split.
    + intros [n Hn]. apply elem_of_get_posts_with_comments in Hn. tauto.
    + intros [Hp Hvis]. exists (Count_comments db pid).
      by apply elem_of_get_posts_with_comments.
  - intros slug cid c Hcat. rewrite (listed_CategoryPostsView _ _ _ _ _ _ _ _ Hcat).
    split.
    + intros [n [Hc Hn]%list_elem_of_filter].
      apply elem_of_get_posts_with_comments in Hn. simpl in Hc. tauto.
    + intros (Hp & Hc & Hvis). exists (Count_comments db pid).
      apply list_elem_of_filter. split; [done|].
      by apply elem_of_get_posts_with_comments.
  - intros username uid u Huser Hother.
    rewrite (listed_profile _ _ _ _ _ _ _ _ Huser), Hother. split.
    + intros [n Hn]. apply elem_of_profile_public_posts in Hn. tauto.
    + intros (Hp & Ha & Hvis). exists (Count_comments db pid).
      by apply elem_of_profile_public_posts.
Qed.

Lemma public_listings_witness :
  listed IndexView_get Sample.db (Sample.get Sample.as_bob) 10 1 Sample.fjords
  ∧ listed (CategoryPostsView_get "travel") Sample.db
      (Sample.get Sample.as_bob) 10 1 Sample.fjords
  ∧ listed (profile "ann") Sample.db (Sample.get Sample.as_bob) 10 1
      Sample.fjords.
Proof.
  assert (Hvis : visibility_predicate Sample.db 10 Sample.fjords).
  { split; [reflexivity|]. split; [|by vm_compute].
    exists 1%nat, Sample.travel. repeat split; reflexivity. }
  destruct (public_listings_apply_the_predicate Sample.db
              (Sample.get Sample.as_bob) 10 1 Sample.fjords)
    as (Hindex & Hcategory & Hprofile).
  split; [|split].
  - apply Hindex. split; [reflexivity|exact Hvis].
  - apply (Hcategory "travel" 1%nat Sample.travel); [reflexivity|].
    split; [reflexivity|split; [reflexivity|exact Hvis]].
  - apply (Hprofile "ann" 1%nat Sample.ann); [reflexivity|reflexivity|].
    split; [reflexivity|split; [reflexivity|exact Hvis]].
Defined.

(** Claim C2, as the specification words it, fails: the post [loose] has
    no category, has its flag set and is dated before 10, and no page of
    the index lists it at 10. *)
Lemma post_without_category_is_not_listed :
  posts Sample.db !! 3%nat = Some Sample.loose
  ∧ Post.category Sample.loose = None
  ∧ Post.is_published Sample.loose = true
  ∧ Post.pub_date Sample.loose ≤ 10
  ∧ ¬ listed IndexView_get Sample.db (Sample.get AnonymousUser) 10 3
        Sample.loose.
Proof.
  repeat split; [by vm_compute|].
  rewrite listed_IndexView. intros [n Hn].
  apply elem_of_get_posts_with_comments in Hn as (_ & Hvis & _).
  destruct Hvis as (_ & (cid & c & Hcat & _) & _). discriminate Hcat.
Qed.

(** Claim C2, amended.  A post whose own flag is set and whose publish
    date is not after [now] is on some page of the index exactly when it
    has a category and that category's flag is set; a post without a
    category is on no page of the index. *)
Theorem index_lists_post_iff_category_published db request now (pid : nat)
    (p : Post.t) :
  posts db !! pid = Some p →
  Post.is_published p = true →
  Post.pub_date p ≤ now →
  (listed IndexView_get db request now pid p
   ↔ ∃ cid c, Post.category p = Some cid
              ∧ categories db !! cid = Some c
              ∧ Category.is_published c = true)
  ∧ (Post.category p = None → ¬ listed IndexView_get db request now pid p).
Proof.
  intros Hp Hflag Hdate.
  assert (Hiff : listed IndexView_get db request now pid p
                 ↔ visibility_predicate db now p).
  { rewrite listed_IndexView. split.
    - intros [n Hn]. apply elem_of_get_posts_with_comments in Hn. tauto.
    - intros Hvis. exists (Count_comments db pid).
      by apply elem_of_get_posts_with_comments. }
  split.
  - rewrite Hiff. unfold visibility_predicate. tauto.
  - intros Hnone [_ [(cid & c & Hcat & _) _]]%Hiff. congruence.
Qed.

Lemma index_lists_post_iff_category_published_witness :
  listed IndexView_get Sample.db (Sample.get AnonymousUser) 10 1 Sample.fjords
  ∧ ¬ listed IndexView_get Sample.db (Sample.get AnonymousUser) 10 3
        Sample.loose.
Proof.
  split.
  - apply (index_lists_post_iff_category_published Sample.db
             (Sample.get AnonymousUser) 10 1 Sample.fjords);
      [reflexivity|reflexivity|by vm_compute|].
    exists 1%nat, Sample.travel. repeat split; reflexivity.
  - apply (index_lists_post_iff_category_published Sample.db
             (Sample.get AnonymousUser) 10 3 Sample.loose);
      [reflexivity|reflexivity|by vm_compute|reflexivity].
Defined.

(** ** The author's view of a post *)

Section author.
Variable CommentForm_clean : Store → list (string * string) → option string.

(** Claim C3.  When the requester is the author of a post, some page of
    the requester's own profile lists the post, [get_object] returns it
    and the detail page renders it, whatever the post's flag, its
    category and its publish date are. *)
Theorem author_sees_own_post db request now uid u (pid : nat) (p : Post.t) :
  user request = Authenticated uid u →
  users db !! uid = Some u →
  (∀ uid' u', users db !! uid' = Some u' →
              User.username u' = User.username u → uid' = uid) →
  posts db !! pid = Some p →
  Post.author p = uid →
  listed (profile (User.username u)) db request now pid p
  ∧ PostDetailView_get_object pid db request now = Return (pid, p)
  ∧ ∃ context,
      PostDetailView_get CommentForm_clean pid db request now
      = Return (render "blog/detail.html" context, db)
      ∧ context !! "post" = Some (VPost (pid, p)).
Proof.
  intros Hreq Hu Huniq Hp Hauthor.
  assert (Hobj : PostDetailView_get_object pid db request now = Return (pid, p)).
  { rewrite PostDetailView_get_object_cases, Hp, Hreq, Hauthor. simpl.
    by rewrite bool_decide_eq_true_2. }
  split; [|split; [done|]].
  - rewrite (listed_profile _ _ _ _ uid u); [|by apply get_User_by_username].
    rewrite Hreq. simpl. rewrite bool_decide_eq_true_2 by done.
    exists (Count_comments db pid). by apply elem_of_profile_own_posts.
  - eexists. split; [by apply PostDetailView_get_Return|].
    by rewrite lookup_insert_ne.
Qed.

(** Claim C4.  For a requester who is not the author of the post with the
    requested identifier, the detail view answers "not found" exactly when
    no post has that identifier or the post fails
    [is_published = true AND category.is_published = true AND
    pub_date <= now]. *)
Theorem detail_not_found_iff post_id db request now :
  (∀ p, posts db !! post_id = Some p →
        user_eq (user request) (Post.author p) = false) →
  (PostDetailView_get_object post_id db request now = Raise Http404
   ↔ posts db !! post_id = None
     ∨ ∃ p, posts db !! post_id = Some p ∧ ¬ visibility_predicate db now p)
  ∧ (PostDetailView_get CommentForm_clean post_id db request now = Raise Http404
     ↔ posts db !! post_id = None
       ∨ ∃ p, posts db !! post_id = Some p ∧ ¬ visibility_predicate db now p).
Proof.
  intros Hother.
  assert (Hobj : PostDetailView_get_object post_id db request now = Raise Http404
    ↔ posts db !! post_id = None
      ∨ ∃ p, posts db !! post_id = Some p ∧ ¬ visibility_predicate db now p).
  { rewrite PostDetailView_get_object_cases.
    destruct (posts db !! post_id) as [p|] eqn:Hp.
    - rewrite (Hother p eq_refl).
      destruct (passes_filter db now p) eqn:Hvis.
      + apply passes_filter_true in Hvis. split; [done|].
        intros [|(p' & [= <-] & Hnot)]; done.
      + apply passes_filter_false in Hvis. split; [|done].
        intros _. right. by exists p.
    - split; [by left|done]. }
  split; [done|]. rewrite <- Hobj.
  destruct (PostDetailView_get_object post_id db request now) as [e|r] eqn:Hr.
  - rewrite (PostDetailView_get_Raise _ _ _ _ _ _ Hr).
    split; intros [= ->]; reflexivity.
  - rewrite (PostDetailView_get_Return _ _ _ _ _ _ Hr).
    split; intros; discriminate.
Qed.
End author.

Lemma author_sees_own_post_witness :
  listed (profile "ann") Sample.db (Sample.get Sample.as_ann) 10 2
    Sample.scheduled
  ∧ PostDetailView_get_object 2 Sample.db (Sample.get Sample.as_ann) 10
    = Return (2%nat, Sample.scheduled)
  ∧ ∃ context,
      PostDetailView_get Sample.CommentForm_clean 2 Sample.db
        (Sample.get Sample.as_ann) 10
      = Return (render "blog/detail.html" context, Sample.db)
      ∧ context !! "post" = Some (VPost (2%nat, Sample.scheduled)).
Proof.
  apply (author_sees_own_post Sample.CommentForm_clean Sample.db
           (Sample.get Sample.as_ann) 10 1%nat Sample.ann 2%nat
           Sample.scheduled); try reflexivity.
  intros uid' u' Hu' Hname.
  destruct (decide (uid' = 1%nat)) as [|Hne1]; [done|].
  destruct (decide (uid' = 2%nat)) as [->|Hne2].
  - vm_compute in Hu'. injection Hu' as <-. discriminate Hname.
  - unfold Sample.db in Hu'. simpl in Hu'.
    rewrite lookup_insert_ne, lookup_singleton_ne in Hu' by done.
    discriminate Hu'.
Defined.

Lemma detail_not_found_iff_witness :
  PostDetailView_get Sample.CommentForm_clean 2 Sample.db
    (Sample.get Sample.as_bob) 10
  = Raise Http404.
Proof.
  apply (detail_not_found_iff Sample.CommentForm_clean 2 Sample.db
           (Sample.get Sample.as_bob) 10).
  - intros p Hp. vm_compute in Hp. injection Hp as <-. reflexivity.
  - right. exists Sample.scheduled. split; [reflexivity|].
    intros (_ & _ & Hdate). vm_compute in Hdate. by apply Hdate.
Defined.

(** ** Deletion *)

(** Project a table out of an updated store. *)
Ltac store_simpl :=
  unfold with_posts, with_comments;
  cbn [users categories locations posts comments].

Lemma lookup_delete_rows {A} (targets : gset nat) (table : gmap nat A) i :
  delete_rows targets table !! i
  = if decide (i ∈ targets) then None else table !! i.
Proof.
  unfold delete_rows. rewrite map_lookup_filter.
  destruct (table !! i) as [row|]; simpl.
  - case_guard; case_decide; simpl in *; done.
  - by case_decide.
Qed.

Lemma delete_rows_empty {A} (table : gmap nat A) : delete_rows ∅ table = table.
Proof.
  apply map_eq. intros i. rewrite lookup_delete_rows.
  case_decide; [set_solver|done].
Qed.

Lemma lookup_on_delete_rows_CASCADE {A} (ref : A → option nat) set_null
    (targets : gset nat) (table : gmap nat A) i row :
  on_delete_rows CASCADE ref set_null targets table !! i = Some row
  ↔ table !! i = Some row ∧ ¬ references ref targets row.
Proof. unfold on_delete_rows. apply map_lookup_filter_Some. Qed.

Lemma lookup_on_delete_rows_SET_NULL {A} (ref : A → option nat) set_null
    (targets : gset nat) (table : gmap nat A) i :
  on_delete_rows SET_NULL ref set_null targets table !! i
  = (λ row, if decide (references ref targets row) then set_null row else row)
      <$> table !! i.
Proof. unfold on_delete_rows. apply lookup_fmap. Qed.

Lemma on_delete_rows_CASCADE_empty {A} (ref : A → option nat) set_null
    (table : gmap nat A) :
  on_delete_rows CASCADE ref set_null ∅ table = table.
Proof.
  apply map_eq. intros i. apply option_eq. intros row.
  rewrite lookup_on_delete_rows_CASCADE. split; [tauto|].
  intros Hi. split; [done|]. unfold references.
  destruct (ref row); set_solver.
Qed.

Lemma Post_delete_all_empty db : Post_delete_all ∅ db = db.
Proof.
  unfold Post_delete_all, Comment_post_on_delete.
  rewrite delete_rows_empty, on_delete_rows_CASCADE_empty. by destruct db.
Qed.

Lemma references_singleton {A} (ref : A → option nat) (i : nat) row :
  references ref {[i]} row ↔ ref row = Some i.
Proof.
  unfold references. destruct (ref row) as [j|]; [|done].
  rewrite elem_of_singleton. split; congruence.
Qed.

(** After [post.delete()] the post is gone, the other posts are as they
    were, and the comments left are those of other posts. *)
Lemma lookup_posts_Post_delete pid db i :
  posts (Post_delete pid db) !! i
  = if decide (i = pid) then None else posts db !! i.
Proof.
  unfold Post_delete, Post_delete_all. store_simpl. rewrite lookup_delete_rows.
  repeat case_decide; set_solver.
Qed.

Lemma lookup_comments_Post_delete pid db cid c :
  comments (Post_delete pid db) !! cid = Some c
  ↔ comments db !! cid = Some c ∧ Comment.post c ≠ pid.
Proof.
  unfold Post_delete, Post_delete_all, Comment_post_on_delete. store_simpl.
  rewrite lookup_on_delete_rows_CASCADE, references_singleton.
  split; intros [? ?]; split; congruence.
Qed.

Lemma lookup_comments_Comment_delete cid db i :
  comments (Comment_delete cid db) !! i
  = if decide (i = cid) then None else comments db !! i.
Proof.
  unfold Comment_delete. store_simpl. rewrite lookup_delete_rows.
  repeat case_decide; set_solver.
Qed.

(** Claim C9.  Deleting a category (a location) leaves every post in the
    table with all its fields as they were, except that a [category]
    ([location]) that referenced the deleted row becomes null; deleting a
    post leaves exactly the comments of the other posts; deleting a user
    leaves exactly the posts of the other users. *)
Theorem on_delete_set_null_and_cascade db :
  (∀ cid pid,
     posts (Category_delete cid db) !! pid
     = (λ p, Post.mk (Post.is_published p) (Post.created_at p) (Post.author p)
               (Post.title p) (Post.text p) (Post.pub_date p) (Post.location p)
               (if decide (Post.category p = Some cid) then None
                else Post.category p))
         <$> posts db !! pid)
  ∧ (∀ lid pid,
       posts (Location_delete lid db) !! pid
       = (λ p, Post.mk (Post.is_published p) (Post.created_at p) (Post.author p)
                 (Post.title p) (Post.text p) (Post.pub_date p)
                 (if decide (Post.location p = Some lid) then None
                  else Post.location p)
                 (Post.category p))
           <$> posts db !! pid)
  ∧ (∀ pid cid c,
       comments (Post_delete pid db) !! cid = Some c
       ↔ comments db !! cid = Some c ∧ Comment.post c ≠ pid)
  ∧ (∀ uid pid p,
       posts (User_delete uid db) !! pid = Some p
       ↔ posts db !! pid = Some p ∧ Post.author p ≠ uid).
Proof.
  split; [|split; [|split]].
  - intros cid pid. unfold Category_delete, Post_category_on_delete, cascaded.
    rewrite Post_delete_all_empty. store_simpl.
    rewrite lookup_on_delete_rows_SET_NULL.
    destruct (posts db !! pid) as [p|]; [|done]. simpl. f_equal.
    destruct p as [f1 f2 f3 f4 f5 f6 f7 f8]. simpl.
    destruct (decide (references _ _ _)) as [Href|Href];
      rewrite references_singleton in Href; simpl in Href;
      by rewrite ?decide_True, ?decide_False by done.
  - intros lid pid. unfold Location_delete, Post_location_on_delete, cascaded.
    rewrite Post_delete_all_empty. store_simpl.
    rewrite lookup_on_delete_rows_SET_NULL.
    destruct (posts db !! pid) as [p|]; [|done]. simpl. f_equal.
    destruct p as [f1 f2 f3 f4 f5 f6 f7 f8]. simpl.
    destruct (decide (references _ _ _)) as [Href|Href];
      rewrite references_singleton in Href; simpl in Href;
      by rewrite ?decide_True, ?decide_False by done.
  - intros pid cid c. apply lookup_comments_Post_delete.
  - intros uid pid p. unfold User_delete, Post_author_on_delete, cascaded,
      Post_delete_all. store_simpl.
    rewrite lookup_delete_rows. case_decide as Hin.
    + apply elem_of_dom in Hin as [p' Hp']. split; [done|]. intros [Hp Hne].
      apply map_lookup_filter_Some in Hp' as [Hp' Href].
      apply references_singleton in Href. simpl in Href. congruence.
    + rewrite lookup_on_delete_rows_CASCADE, references_singleton.
      split; intros [? ?]; split; congruence.
Qed.

(** ** The handlers that change the store *)

Lemma user_eq_Authenticated uid u (a : nat) :
  user_eq (Authenticated uid u) a = bool_decide (uid = a).
Proof. done. Qed.

Section mutations.
Variable PostForm_clean :
  Store → list (string * string) → list (string * string) → option PostFormData.
Variable CommentForm_clean : Store → list (string * string) → option string.

(** Unfold a [login_required] view on a request of a logged in user whose
    resource lookup is known. *)
Ltac run_view Hreq Hrow :=
  unfold login_required, get_by_id_or_404; rewrite Hreq; cbn [is_authenticated];
  rewrite ?Hrow; cbn [mbind Result_bind mret Result_ret fst snd];
  rewrite ?user_eq_Authenticated.

(** Claim C5.  When an authenticated requester who is not the author asks
    to edit or delete a post or a comment, the handler redirects to the
    detail page of the post in the URL and returns the store as it was:
    nothing is modified and nothing is deleted. *)
Theorem non_author_is_redirected db request now uid u :
  user request = Authenticated uid u →
  (∀ post_id p,
     posts db !! post_id = Some p → Post.author p ≠ uid →
     edit_post PostForm_clean post_id db request now
     = Return (redirect (url_post_detail post_id), db)
     ∧ delete_post PostForm_clean post_id db request now
       = Return (redirect (url_post_detail post_id), db))
  ∧ (∀ post_id comment_id c,
       comments db !! comment_id = Some c → Comment.author c ≠ uid →
       edit_comment CommentForm_clean post_id comment_id db request now
       = Return (redirect (url_post_detail post_id), db)
       ∧ delete_comment post_id comment_id db request now
         = Return (redirect (url_post_detail post_id), db)).
Proof.
  intros Hreq. split.
  - intros post_id p Hp Hne. split.
    + unfold edit_post, edit_post__wrapped. run_view Hreq Hp.
      by rewrite bool_decide_eq_false_2.
    + unfold delete_post, delete_post__wrapped. run_view Hreq Hp.
      by rewrite bool_decide_eq_false_2.
  - intros post_id comment_id c Hc Hne. split.
    + unfold edit_comment, edit_comment__wrapped. run_view Hreq Hc.
      by rewrite bool_decide_eq_false_2.
    + unfold delete_comment, delete_comment__wrapped. run_view Hreq Hc.
      by rewrite bool_decide_eq_false_2.
Qed.

Lemma is_valid_false {A} (f : Form A) : is_valid f = false → validated f = None.
Proof.
  unfold is_valid. intros Hv%bool_decide_eq_false.
  destruct (validated f); [|done]. destruct Hv. by eexists.
Qed.

Lemma has_errors_invalid {A} (f : Form A) :
  is_valid f = false → has_errors f = is_bound f.
Proof. unfold has_errors. intros ->. by destruct (is_bound f). Qed.

(** Claim C6, amended.  For a logged in requester: when the submitted data
    fails validation, [create_post], [edit_post] by the author and
    [edit_comment] by the author render their template with the form,
    which carries errors when it was bound to a submission, and return
    the store as it was; [add_comment] redirects to the detail page of
    the post and returns the store as it was. *)
Theorem invalid_form_saves_nothing db request now uid u :
  user request = Authenticated uid u →
  (∀ form,
     form = PostForm PostForm_clean db (or_None (POST request))
              (or_None (FILES request)) →
     is_valid form = false →
     create_post PostForm_clean db request now
     = Return (render "blog/create.html" {[ "form" := VPostForm form ]}, db)
     ∧ has_errors form = is_bound form)
  ∧ (∀ post_id p form,
       posts db !! post_id = Some p → Post.author p = uid →
       form = PostForm PostForm_clean db (or_None (POST request)) None →
       is_valid form = false →
       edit_post PostForm_clean post_id db request now
       = Return (render "blog/create.html" {[ "form" := VPostForm form ]}, db)
       ∧ has_errors form = is_bound form)
  ∧ (∀ post_id comment_id c form,
       comments db !! comment_id = Some c → Comment.author c = uid →
       form = CommentForm CommentForm_clean db (or_None (POST request)) →
       is_valid form = false →
       edit_comment CommentForm_clean post_id comment_id db request now
       = Return
           (render "blog/comment.html"
              {[ "comment" := VComment (comment_id, c);
                 "form" := VCommentForm form ]},
            db)
       ∧ has_errors form = is_bound form)
  ∧ (∀ post_id p,
       posts db !! post_id = Some p →
       is_valid (CommentForm CommentForm_clean db (or_None (POST request)))
       = false →
       add_comment CommentForm_clean post_id db request now
       = Return (redirect (url_post_detail post_id), db)).
Proof.
  intros Hreq. split; [|split; [|split]].
  - intros form -> Hinvalid. split; [|by apply has_errors_invalid].
    unfold create_post, create_post__wrapped. run_view Hreq Hreq.
    by rewrite (is_valid_false _ Hinvalid).
  - intros post_id p form Hp Hauthor -> Hinvalid.
    split; [|by apply has_errors_invalid].
    unfold edit_post, edit_post__wrapped. run_view Hreq Hp.
    rewrite bool_decide_eq_true_2 by done. cbn [negb].
    by rewrite (is_valid_false _ Hinvalid).
  - intros post_id comment_id c form Hc Hauthor -> Hinvalid.
    split; [|by apply has_errors_invalid].
    unfold edit_comment, edit_comment__wrapped. run_view Hreq Hc.
    rewrite bool_decide_eq_true_2 by done. cbn [negb].
    by rewrite (is_valid_false _ Hinvalid).
  - intros post_id p Hp Hinvalid.
    unfold add_comment, add_comment__wrapped. run_view Hreq Hp.
    by rewrite (is_valid_false _ Hinvalid).
Qed.

(** Claim C7.  When the author asks to delete a post or a comment, a
    request whose method is not POST (a GET) renders the confirmation
    template and returns the store as it was; a POST request deletes the
    resource and leaves the other rows of its table as they were. *)
Theorem delete_is_confirmed_by_POST db request now uid u :
  user request = Authenticated uid u →
  (∀ post_id p,
     posts db !! post_id = Some p → Post.author p = uid →
     (method request ≠ "POST" →
      delete_post PostForm_clean post_id db request now
      = Return
          (render "blog/create.html"
             {[ "form" :=
                  VPostForm
                    (PostForm PostForm_clean db (or_None (POST request)) None) ]},
           db))
     ∧ (method request = "POST" →
        ∃ db',
          delete_post PostForm_clean post_id db request now
          = Return (redirect url_index, db')
          ∧ ∀ i, posts db' !! i
                 = if decide (i = post_id) then None else posts db !! i))
  ∧ (∀ post_id comment_id c,
       comments db !! comment_id = Some c → Comment.author c = uid →
       (method request ≠ "POST" →
        delete_comment post_id comment_id db request now
        = Return
            (render "blog/comment.html"
               {[ "comment" := VComment (comment_id, c) ]},
             db))
       ∧ (method request = "POST" →
          ∃ db',
            delete_comment post_id comment_id db request now
            = Return (redirect (url_post_detail post_id), db')
            ∧ posts db' = posts db
            ∧ ∀ i, comments db' !! i
                   = if decide (i = comment_id) then None
                     else comments db !! i)).
Proof.
  intros Hreq. split.
  - intros post_id p Hp Hauthor. split; intros Hmethod.
    + unfold delete_post, delete_post__wrapped. run_view Hreq Hp.
      rewrite bool_decide_eq_true_2 by done. cbn [negb].
      by rewrite bool_decide_eq_false_2.
    + exists (Post_delete post_id db). split.
      * unfold delete_post, delete_post__wrapped. run_view Hreq Hp.
        rewrite bool_decide_eq_true_2 by done. cbn [negb].
        by rewrite bool_decide_eq_true_2.
      * intros i. apply lookup_posts_Post_delete.
  - intros post_id comment_id c Hc Hauthor. split; intros Hmethod.
    + unfold delete_comment, delete_comment__wrapped. run_view Hreq Hc.
      rewrite bool_decide_eq_true_2 by done. cbn [negb].
      by rewrite bool_decide_eq_false_2.
    + exists (Comment_delete comment_id db). split; [|split].
      * unfold delete_comment, delete_comment__wrapped. run_view Hreq Hc.
        rewrite bool_decide_eq_true_2 by done. cbn [negb].
        by rewrite bool_decide_eq_true_2.
      * done.
      * intros i. apply lookup_comments_Comment_delete.
Qed.
End mutations.

(** ** The comments of the detail page *)

#[global] Instance older_first_total : Total older_first.
Proof. intros a b. unfold older_first. lia. Qed.

#[global] Instance older_first_trans : Transitive older_first.
Proof. intros a b c. unfold older_first. lia. Qed.

Lemma Comment_Meta_ordering_sorted qs :
  StronglySorted older_first (Comment_Meta_ordering qs).
Proof. apply StronglySorted_merge_sort; apply _. Qed.

Lemma elem_of_Comment_Meta_ordering qs r :
  r ∈ Comment_Meta_ordering qs ↔ r ∈ qs.
Proof. unfold Comment_Meta_ordering. by rewrite merge_sort_Permutation. Qed.

Lemma save_new_fresh {A} (row : A) (table : gmap nat A) :
  table !! new_pk table = None.
Proof. unfold new_pk. apply not_elem_of_dom, is_fresh. Qed.

Section comments.
Variable CommentForm_clean : Store → list (string * string) → option string.

(** What the two handlers of the detail page render. *)
Lemma PostDetailView_renders post_id db request now template context db' :
  PostDetailView_get CommentForm_clean post_id db request now
  = Return (render template context, db')
  ∨ PostDetailView_post CommentForm_clean post_id db request now
    = Return (render template context, db') →
  ∃ p,
    PostDetailView_get_object post_id db request now = Return (post_id, p)
    ∧ context !! "comments"
      = Some (VComments
                (Comment_Meta_ordering
                   (filter (λ c : nat * Comment.t, Comment.post c.2 = post_id)
                           (select_related (objects (comments db)))))).
Proof.
  destruct (PostDetailView_get_object post_id db request now) as [e|[i p]] eqn:Hobj.
  { rewrite (PostDetailView_get_Raise _ _ _ _ _ _ Hobj),
      (PostDetailView_post_Raise _ _ _ _ _ _ Hobj). by intros [|]. }
  destruct (PostDetailView_get_object_id _ _ _ _ _ Hobj) as [Hi _].
  simpl in Hi. subst i. intros Hrender. exists p. split; [done|].
  destruct Hrender as [Hget | Hpost].
  - rewrite (PostDetailView_get_Return _ _ _ _ _ _ Hobj) in Hget.
    injection Hget as _ <- _. by rewrite lookup_insert_eq.
  - unfold PostDetailView_post in Hpost. rewrite Hobj in Hpost.
    cbn [mbind Result_bind] in Hpost.
    destruct (validated _) as [text|].
    + by destruct (as_author (user request)).
    + rewrite (PostDetailView_get_context_data_Return _ _ _ _ _ _ _ Hobj) in Hpost.
      injection Hpost as _ <- _. by rewrite lookup_insert_eq.
Qed.

(** Claim C8.  The comments that the detail page of a post renders are
    the comments of that post, in ascending order of creation time. *)
Theorem detail_comments_oldest_first post_id db request now template context db' :
  PostDetailView_get CommentForm_clean post_id db request now
  = Return (render template context, db')
  ∨ PostDetailView_post CommentForm_clean post_id db request now
    = Return (render template context, db') →
  ∃ cs,
    context !! "comments" = Some (VComments cs)
    ∧ StronglySorted
        (λ a b : nat * Comment.t,
           Comment.created_at a.2 ≤ Comment.created_at b.2)
        cs
    ∧ ∀ cid c,
        (cid, c) ∈ cs ↔ comments db !! cid = Some c ∧ Comment.post c = post_id.
Proof.
  intros (p & _ & Hcomments)%PostDetailView_renders.
  eexists. split; [exact Hcomments|]. split.
  - apply Comment_Meta_ordering_sorted.
  - intros cid c. unfold select_related.
    rewrite elem_of_Comment_Meta_ordering, list_elem_of_filter, elem_of_objects.
    simpl. tauto.
Qed.

(** Claim C10.  The claim asks that a POST to the detail page with a valid
    text is stored as a comment of the requester.  The code does not get
    there: the handler is declared without the keyword that the route
    passes, so that every POST to the detail page, of any requester and
    with any text, raises [TypeError] before the body of the method runs;
    no comment is stored and no response is given, not even a redirect to
    the login page. *)
Theorem detail_page_POST_raises_TypeError post_id db request now :
  method request = "POST" →
  PostDetailView_dispatch CommentForm_clean post_id db request now
  = handler_result (Raise TypeError).
Proof.
  intros Hmethod. unfold PostDetailView_dispatch, bind_call.
  rewrite Hmethod. reflexivity.
Qed.
End comments.

(** ** Concrete runs *)

Lemma non_author_is_redirected_witness :
  edit_post Sample.PostForm_clean 1 Sample.db
    (Sample.post Sample.as_bob [("title", "Mine now")]) 10
  = Return (redirect (url_post_detail 1), Sample.db)
  ∧ delete_comment 1 2 Sample.db (Sample.post Sample.as_bob []) 10
    = Return (redirect (url_post_detail 1), Sample.db).
Proof.
  destruct (non_author_is_redirected Sample.PostForm_clean
              Sample.CommentForm_clean Sample.db
              (Sample.post Sample.as_bob [("title", "Mine now")]) 10
              2%nat Sample.bob eq_refl) as [Hposts _].
  destruct (non_author_is_redirected Sample.PostForm_clean
              Sample.CommentForm_clean Sample.db
              (Sample.post Sample.as_bob []) 10
              2%nat Sample.bob eq_refl) as [_ Hcomments].
  split.
  - apply (Hposts 1%nat Sample.fjords); [reflexivity|].
    intros Heq. discriminate Heq.
  - apply (Hcomments 1%nat 2%nat Sample.early_comment); [reflexivity|].
    intros Heq. discriminate Heq.
Defined.

(** Claim C6, as the specification words it, fails for the creation of a
    comment: on a text that the form rejects, [add_comment] answers with a
    redirect and renders no form. *)
Lemma add_comment_invalid_renders_no_form :
  is_valid (CommentForm Sample.CommentForm_clean Sample.db
              (or_None [("text", "")]))
  = false
  ∧ add_comment Sample.CommentForm_clean 1 Sample.db
      (Sample.post Sample.as_bob [("text", "")]) 10
    = Return (redirect (url_post_detail 1), Sample.db)
  ∧ ∀ template context db',
      add_comment Sample.CommentForm_clean 1 Sample.db
        (Sample.post Sample.as_bob [("text", "")]) 10
      ≠ Return (render template context, db').
Proof.
  split; [reflexivity|]. split; [reflexivity|].
  intros template context db' Hrender. vm_compute in Hrender.
  discriminate Hrender.
Qed.

Lemma invalid_form_saves_nothing_witness :
  create_post Sample.PostForm_clean Sample.db
    (Sample.post Sample.as_ann [("title", "")]) 10
  = Return
      (render "blog/create.html"
         {[ "form" := VPostForm (mkForm true None) ]},
       Sample.db)
  ∧ add_comment Sample.CommentForm_clean 1 Sample.db
      (Sample.post Sample.as_ann [("text", "")]) 10
    = Return (redirect (url_post_detail 1), Sample.db).
Proof.
  split.
  - apply (invalid_form_saves_nothing Sample.PostForm_clean
             Sample.CommentForm_clean Sample.db
             (Sample.post Sample.as_ann [("title", "")]) 10
             1%nat Sample.ann eq_refl);
      reflexivity.
  - apply (invalid_form_saves_nothing Sample.PostForm_clean
             Sample.CommentForm_clean Sample.db
             (Sample.post Sample.as_ann [("text", "")]) 10
             1%nat Sample.ann eq_refl)
      with (p := Sample.fjords);
      reflexivity.
Defined.

Lemma delete_is_confirmed_by_POST_witness :
  delete_comment 1 2 Sample.db (Sample.get Sample.as_ann) 10
  = Return
      (render "blog/comment.html"
         {[ "comment" := VComment (2%nat, Sample.early_comment) ]},
       Sample.db)
  ∧ ∃ db',
      delete_post Sample.PostForm_clean 1 Sample.db
        (Sample.post Sample.as_ann []) 10
      = Return (redirect url_index, db')
      ∧ ∀ i, posts db' !! i
             = if decide (i = 1%nat) then None else posts Sample.db !! i.
Proof.
  split.
  - apply (delete_is_confirmed_by_POST Sample.PostForm_clean Sample.db
             (Sample.get Sample.as_ann) 10 1%nat Sample.ann eq_refl);
      [reflexivity|reflexivity|].
    intros Hmethod. discriminate Hmethod.
  - apply (delete_is_confirmed_by_POST Sample.PostForm_clean Sample.db
             (Sample.post Sample.as_ann []) 10 1%nat Sample.ann eq_refl)
      with (p := Sample.fjords);
      reflexivity.
Defined.

Lemma detail_comments_oldest_first_witness :
  ∃ cs,
    StronglySorted
      (λ a b : nat * Comment.t, Comment.created_at a.2 ≤ Comment.created_at b.2)
      cs
    ∧ ∀ cid c,
        (cid, c) ∈ cs
        ↔ comments Sample.db !! cid = Some c ∧ Comment.post c = 1%nat.
Proof.
  edestruct (detail_comments_oldest_first Sample.CommentForm_clean 1
               Sample.db (Sample.get Sample.as_bob) 10)
    as (cs & _ & Hsorted & Hrows).
  - left. reflexivity.
  - exists cs. split; [exact Hsorted|exact Hrows].
Defined.

Lemma detail_page_POST_raises_TypeError_witness :
  validated
    (CommentForm Sample.CommentForm_clean Sample.db (Some [("text", "Hello")]))
  = Some "Hello"
  ∧ PostDetailView_dispatch Sample.CommentForm_clean 1 Sample.db
      (Sample.post Sample.as_bob [("text", "Hello")]) 10
    = handler_result (Raise TypeError)
  ∧ PostDetailView_dispatch Sample.CommentForm_clean 1 Sample.db
      (Sample.post AnonymousUser [("text", "Hello")]) 10
    = handler_result (Raise TypeError).
Proof.
  split; [reflexivity|]. split.
  - apply (detail_page_POST_raises_TypeError Sample.CommentForm_clean 1
             Sample.db (Sample.post Sample.as_bob [("text", "Hello")]) 10).
    reflexivity.
  - apply (detail_page_POST_raises_TypeError Sample.CommentForm_clean 1
             Sample.db (Sample.post AnonymousUser [("text", "Hello")]) 10).
    reflexivity.
Defined.

(** ** Further properties of the pagination *)

Section pages.
Context {A : Type}.
Implicit Types (l : list A) (per : nat) (n : Z).
Lemma Paginator_page_slice l per n :
  object_list (Paginator_page l per n)
  = take per (drop (Z.to_nat (n - 1) * per) l).
Proof.
  unfold Paginator_page. cbn [object_list].
  set (bottom := (Z.to_nat (n - 1) * per)%nat).
  case_bool_decide as Hclip.
  - rewrite !take_ge; [done| |]; rewrite length_drop; lia.
  - f_equal. lia.
Qed.

Lemma concat_slices l per k :
  (0 < per)%nat → (length l ≤ k * per)%nat →
  concat ((λ i, take per (drop (i * per) l)) <$> seq 0 k) = l.
Proof.
  intros Hper. revert l. induction k as [|k IH]; intros l Hlen.
  - destruct l; [done|simpl in Hlen; lia].
  - cbn [seq fmap list_fmap concat]. rewrite <- fmap_S_seq, <- list_fmap_compose.
    change (drop (0 * per) l) with l.
    transitivity (take per l ++ drop per l); [|apply take_drop].
    f_equal. etrans; [|apply (IH (drop per l)); rewrite length_drop; lia].
    f_equal. apply list_fmap_ext. intros _ i _. simpl.
    by rewrite drop_drop.
Qed.

Lemma num_pages_bounds l per :
  (0 < per)%nat →
  1 ≤ num_pages l per
  ∧ Z.of_nat (length l) ≤ num_pages l per * Z.of_nat per
  ∧ (num_pages l per - 1) * Z.of_nat per < Z.max 1 (Z.of_nat (length l)).
Proof.
  intros Hper. unfold num_pages.
  set (hits := Z.max 1 (Z.of_nat (length l))).
  set (p := Z.of_nat per).
  assert (0 < p) by lia.
  pose proof (Z.div_mod (hits + p - 1) p ltac:(lia)) as Hdiv.
  pose proof (Z.mod_pos_bound (hits + p - 1) p ltac:(lia)) as Hmod.
  assert (1 ≤ hits) by lia.
  repeat split; nia.
Qed.

(** Every request gets a page whose number is in range. *)
Lemma get_paginator_is_page request l per :
  (0 < per)%nat →
  ∃ n, 1 ≤ n ≤ num_pages l per
       ∧ get_paginator request l per = Paginator_page l per n.
Proof.
  intros Hper. destruct (num_pages_bounds l per Hper) as (Hone & _ & _).
  unfold get_paginator, get_page, validate_number.
  destruct (GET_page request) as [|n|s].
  - exists 1. split; [lia|done].
  - repeat case_bool_decide.
    + exists (num_pages l per). split; [lia|done].
    + exists (num_pages l per). split; [lia|done].
    + exists n. split; [lia|done].
  - exists 1. split; [lia|done].
Qed.

(** Property X1.  The pages 1 to [num_pages] that [get_paginator] serves,
    one after the other, are the queryset: no row is lost, repeated or
    moved. *)
Theorem pages_partition_the_queryset request l per :
  (0 < per)%nat →
  concat
    ((λ i : nat,
        object_list
          (get_paginator (with_page (page_int (Z.of_nat i)) request) l per))
       <$> seq 1 (Z.to_nat (num_pages l per)))
  = l.
Proof.
  intros Hper. destruct (num_pages_bounds l per Hper) as (Hone & Hcover & _).
  etrans; [|apply (concat_slices l per (Z.to_nat (num_pages l per)));
             [done|nia]].
  rewrite <- fmap_S_seq, <- list_fmap_compose. f_equal.
  apply list_fmap_ext. intros j i [-> Hi]%lookup_seq. simpl.
  rewrite get_paginator_in_range by lia.
  rewrite Paginator_page_slice. do 3 f_equal. lia.
Qed.

(** Property X2.  Whatever the page parameter is, [get_paginator] serves
    a slice of the queryset of at most [per] rows, and a queryset that
    has rows never gets an empty page. *)
Theorem get_paginator_serves_a_full_slice request l per :
  (0 < per)%nat →
  (∃ bottom,
     object_list (get_paginator request l per) = take per (drop bottom l))
  ∧ (length (object_list (get_paginator request l per)) ≤ per)%nat
  ∧ (l ≠ [] → object_list (get_paginator request l per) ≠ []).
Proof.
  intros Hper.
  destruct (get_paginator_is_page request l per Hper) as (n & Hn & ->).
  destruct (num_pages_bounds l per Hper) as (_ & _ & Hlast).
  rewrite Paginator_page_slice. split; [by eexists|]. split.
  - rewrite length_take. lia.
  - intros Hne Hempty. apply (f_equal length) in Hempty.
    rewrite length_take, length_drop in Hempty. simpl in Hempty.
    assert (0 < length l)%nat by (destruct l; [done|simpl; lia]).
    nia.
Qed.
End pages.

Lemma pages_partition_the_queryset_witness :
  concat
    ((λ i : nat,
        object_list
          (get_paginator
             (with_page (page_int (Z.of_nat i)) (Sample.get AnonymousUser))
             [1; 2; 3; 4; 5]%nat 2))
       <$> seq 1 (Z.to_nat (num_pages [1; 2; 3; 4; 5]%nat 2)))
  = [1; 2; 3; 4; 5]%nat.
Proof. apply pages_partition_the_queryset. lia. Defined.

Lemma get_paginator_serves_a_full_slice_witness :
  object_list
    (get_paginator (with_page (page_int 7) (Sample.get AnonymousUser))
       [1; 2; 3; 4; 5]%nat 2)
  ≠ [].
Proof.
  apply (get_paginator_serves_a_full_slice
           (with_page (page_int 7) (Sample.get AnonymousUser))
           [1; 2; 3; 4; 5]%nat 2);
    [lia|discriminate].
Defined.

(** ** Further properties of the listings *)

#[global] Instance newer_first_total : Total newer_first.
Proof. intros a b. unfold newer_first. lia. Qed.

#[global] Instance newer_first_trans : Transitive newer_first.
Proof. intros a b c. unfold newer_first. lia. Qed.

Lemma StronglySorted_sublist {A} (R : relation A) (l k : list A) :
  StronglySorted R l → k `sublist_of` l → StronglySorted R k.
Proof.
  intros Hsorted. revert k.
  induction Hsorted as [|x l Hsorted IH Hall]; intros k Hsub.
  - apply sublist_nil_r in Hsub as ->. constructor.
  - inv Hsub; [|by apply IH].
    constructor; [by apply IH|].
    rewrite Forall_forall in Hall |- *. intros y Hy. apply Hall.
    by eapply elem_of_sublist.
Qed.

Lemma get_posts_with_comments_sorted db now :
  StronglySorted newer_first (get_posts_with_comments db now).
Proof.
  unfold get_posts_with_comments, order_by_pub_date_desc.
  apply StronglySorted_merge_sort; apply _.
Qed.

(** A page of a sorted queryset is sorted. *)
Lemma get_paginator_sorted request (qs : list (nat * Post.t * nat)) :
  StronglySorted newer_first qs →
  StronglySorted newer_first (object_list (get_paginator request qs 10)).
Proof.
  intros Hsorted.
  destruct (get_paginator_is_page request qs 10) as (n & _ & ->); [lia|].
  rewrite Paginator_page_slice.
  eapply StronglySorted_sublist; [exact Hsorted|].
  etrans; [apply sublist_take|apply sublist_drop].
Qed.

Lemma CategoryPostsView_get_Return slug db request now cid c :
  CategoryPostsView_get_category slug db = Return (cid, c) →
  ∃ context,
    CategoryPostsView_get slug db request now
    = Return (render "blog/category.html" context, db)
    ∧ context !! "page_obj"
      = Some (VPage
                (get_paginator request
                   (filter (λ r : nat * Post.t * nat,
                              Post.category r.1.2 = Some cid)
                           (get_posts_with_comments db now))
                   10)).
Proof.
  intros Hcat. eexists. split.
  - unfold CategoryPostsView_get, CategoryPostsView_get_context_data,
      CategoryPostsView_get_queryset. rewrite Hcat. reflexivity.
  - rewrite lookup_insert_ne by done. apply lookup_insert_eq.
Qed.

Lemma CategoryPostsView_get_Raise slug db request now e :
  CategoryPostsView_get_category slug db = Raise e →
  CategoryPostsView_get slug db request now = Raise e.
Proof.
  intros Hcat. unfold CategoryPostsView_get, CategoryPostsView_get_queryset.
  by rewrite Hcat.
Qed.

Lemma profile_Raise username db request now e :
  get_object_or_404
    (filter (λ r : nat * User.t, User.username r.2 = username) (objects (users db)))
  = Raise e →
  profile username db request now = Raise e.
Proof. intros Huser. unfold profile. by rewrite Huser. Qed.

(** Property X3.  The queryset of the public listings is ordered newest
    first and holds no post twice, and so is every page that the index,
    a category page and a profile show. *)
Theorem listings_are_newest_first db request now :
  StronglySorted
    (λ a b : nat * Post.t * nat, Post.pub_date b.1.2 ≤ Post.pub_date a.1.2)
    (get_posts_with_comments db now)
  ∧ NoDup ((λ r : nat * Post.t * nat, r.1.1) <$> get_posts_with_comments db now)
  ∧ StronglySorted
      (λ a b : nat * Post.t * nat, Post.pub_date b.1.2 ≤ Post.pub_date a.1.2)
      (page_obj_of (IndexView_get db request now))
  ∧ (∀ slug,
       StronglySorted
         (λ a b : nat * Post.t * nat, Post.pub_date b.1.2 ≤ Post.pub_date a.1.2)
         (page_obj_of (CategoryPostsView_get slug db request now)))
  ∧ (∀ username,
       StronglySorted
         (λ a b : nat * Post.t * nat, Post.pub_date b.1.2 ≤ Post.pub_date a.1.2)
         (page_obj_of (profile username db request now))).
Proof.
  split; [apply get_posts_with_comments_sorted|]. split; [|split; [|split]].
  - unfold get_posts_with_comments, order_by_pub_date_desc,
      annotate_comment_count, select_related.
    rewrite merge_sort_Permutation, <- list_fmap_compose.
    eapply sublist_NoDup; [apply (NoDup_fst_map_to_list (posts db))|].
    apply fmap_sublist, sublist_filter.
  - unfold IndexView_get, IndexView_get_context_data.
    destruct (ListView_get_context_data _ _ _ _) as [e|context];
      [constructor|].
    cbn [mbind Result_bind mret Result_ret page_obj_of].
    rewrite lookup_insert_eq.
    apply get_paginator_sorted, get_posts_with_comments_sorted.
  - intros slug.
    destruct (CategoryPostsView_get_category slug db) as [e|[cid c]] eqn:Hcat.
    + rewrite (CategoryPostsView_get_Raise _ _ _ _ _ Hcat). constructor.
    + destruct (CategoryPostsView_get_Return _ _ request now _ _ Hcat)
        as (context & -> & Hpage).
      cbn [page_obj_of]. rewrite Hpage. apply get_paginator_sorted.
      eapply StronglySorted_sublist; [apply get_posts_with_comments_sorted|].
      apply sublist_filter.
  - intros username.
    destruct (get_object_or_404
                (filter (λ r : nat * User.t, User.username r.2 = username)
                        (objects (users db)))) as [e|[uid u]] eqn:Huser.
    + rewrite (profile_Raise _ _ _ _ _ Huser). constructor.
    + rewrite (profile_Return _ _ _ _ _ _ Huser). cbn [page_obj_of].
      rewrite lookup_insert_ne by done. rewrite lookup_singleton_eq.
      apply get_paginator_sorted.
      apply StronglySorted_merge_sort; apply _.
Qed.

(** Property X4.  The index answers "not found" to a page parameter that
    is neither a number nor [last], and to a number out of range, because
    the generic list view paginates first; a category page and a profile
    page, which only call [get_paginator], render for every page
    parameter.  For [last] the index renders, and shows the first page. *)
Theorem index_rejects_pages_the_others_accept db request now :
  (∀ s, GET_page request = page_text s → s ≠ "" → s ≠ "last" →
        IndexView_get db request now = Raise Http404)
  ∧ (∀ n, GET_page request = page_int n →
          n < 1 ∨ n > num_pages (get_posts_with_comments db now) 10 →
          IndexView_get db request now = Raise Http404)
  ∧ (GET_page request = page_text "last" →
     ∃ context,
       IndexView_get db request now
       = Return (render "blog/index.html" context, db)
       ∧ context !! "page_obj"
         = Some (VPage (Paginator_page (get_posts_with_comments db now) 10 1)))
  ∧ (∀ slug cid c,
       CategoryPostsView_get_category slug db = Return (cid, c) →
       ∃ context,
         CategoryPostsView_get slug db request now
         = Return (render "blog/category.html" context, db))
  ∧ (∀ username uid u,
       get_object_or_404
         (filter (λ r : nat * User.t, User.username r.2 = username)
                 (objects (users db)))
       = Return (uid, u) →
       ∃ context,
         profile username db request now
         = Return (render "blog/profile.html" context, db)).
Proof.
  split; [|split; [|split; [|split]]].
  - intros s Hpage Hempty Hlast.
    unfold IndexView_get, IndexView_get_context_data, ListView_get_context_data,
      ListView_paginate_queryset.
    rewrite Hpage. by rewrite !bool_decide_eq_false_2 by done.
  - intros n Hpage Hrange.
    unfold IndexView_get, IndexView_get_context_data, ListView_get_context_data,
      ListView_paginate_queryset, page, validate_number, IndexView_get_queryset.
    rewrite Hpage. cbn [mbind Result_bind].
    destruct Hrange.
    + by rewrite bool_decide_eq_true_2 by done.
    + case_bool_decide; [done|]. by rewrite bool_decide_eq_true_2 by done.
  - intros Hpage.
    destruct (num_pages_bounds (get_posts_with_comments db now) 10)
      as (Hone & _ & _); [lia|].
    eexists. split.
    + unfold IndexView_get, IndexView_get_context_data,
        ListView_get_context_data, ListView_paginate_queryset, page,
        validate_number, IndexView_get_queryset.
      rewrite Hpage. cbn [mbind Result_bind bool_decide decide_rel].
      rewrite bool_decide_eq_false_2 by done.
      rewrite bool_decide_eq_true_2 by done.
      cbn [mbind Result_bind].
      rewrite !bool_decide_eq_false_2 by lia. reflexivity.
    + rewrite lookup_insert_eq. unfold get_paginator, get_page, validate_number.
      by rewrite Hpage.
  - intros slug cid c Hcat.
    destruct (CategoryPostsView_get_Return _ _ request now _ _ Hcat)
      as (context & Hview & _).
    by exists context.
  - intros username uid u Huser. eexists.
    by rewrite (profile_Return _ _ _ _ _ _ Huser).
Qed.

Lemma index_rejects_pages_the_others_accept_witness :
  IndexView_get Sample.db
    (with_page (page_text "two") (Sample.get AnonymousUser)) 10
  = Raise Http404
  ∧ IndexView_get Sample.db
      (with_page (page_int 2) (Sample.get AnonymousUser)) 10
    = Raise Http404
  ∧ ∃ context,
      profile "ann" Sample.db
        (with_page (page_int 2) (Sample.get AnonymousUser)) 10
      = Return (render "blog/profile.html" context, Sample.db).
Proof.
  split; [|split].
  - apply (index_rejects_pages_the_others_accept Sample.db
             (with_page (page_text "two") (Sample.get AnonymousUser)) 10)
      with (s := "two"); [reflexivity|discriminate|discriminate].
  - apply (index_rejects_pages_the_others_accept Sample.db
             (with_page (page_int 2) (Sample.get AnonymousUser)) 10)
      with (n := 2); [reflexivity|]. right. by vm_compute.
  - apply (index_rejects_pages_the_others_accept Sample.db
             (with_page (page_int 2) (Sample.get AnonymousUser)) 10)
      with (uid := 1%nat) (u := Sample.ann).
    reflexivity.
Defined.

(** Property X5.  The page of a category whose slug no category has, or
    only categories with the flag unset have, is "not found", whatever
    posts there are. *)
Theorem hidden_category_is_not_found slug db request now :
  (∀ cid c, categories db !! cid = Some c → Category.slug c = slug →
            Category.is_published c = false) →
  CategoryPostsView_get_category slug db = Raise Http404
  ∧ CategoryPostsView_get slug db request now = Raise Http404.
Proof.
  intros Hhidden.
  assert (Hcat : CategoryPostsView_get_category slug db = Raise Http404).
  { apply get_object_or_404_none. intros cid c Hc [Hslug Hflag].
    simpl in Hslug, Hflag. rewrite (Hhidden cid c Hc Hslug) in Hflag.
    discriminate Hflag. }
  split; [done|]. by apply CategoryPostsView_get_Raise.
Qed.

Lemma hidden_category_is_not_found_witness :
  CategoryPostsView_get "drafts" Sample.db (Sample.get Sample.as_ann) 10
  = Raise Http404.
Proof.
  apply (hidden_category_is_not_found "drafts" Sample.db
           (Sample.get Sample.as_ann) 10).
  intros cid c Hc Hslug.
  destruct (decide (cid = 2%nat)) as [->|Hne2].
  { vm_compute in Hc. by injection Hc as <-. }
  destruct (decide (cid = 1%nat)) as [->|Hne1].
  { vm_compute in Hc. injection Hc as <-. discriminate Hslug. }
  unfold Sample.db in Hc. cbn [categories] in Hc.
  rewrite lookup_insert_ne, lookup_singleton_ne in Hc by done.
  discriminate Hc.
Defined.

(** Property X6.  A profile lists posts of the profile's user only,
    whoever looks at it; the user's own view lists all of them. *)
Theorem profile_lists_own_posts_only username db request now uid u
    (pid : nat) (p : Post.t) :
  get_object_or_404
    (filter (λ r : nat * User.t, User.username r.2 = username)
            (objects (users db)))
  = Return (uid, u) →
  (listed (profile username) db request now pid p →
   posts db !! pid = Some p ∧ Post.author p = uid)
  ∧ (user_eq (user request) uid = true →
     listed (profile username) db request now pid p
     ↔ posts db !! pid = Some p ∧ Post.author p = uid).
Proof.
  intros Huser. rewrite (listed_profile _ _ _ _ _ _ _ _ Huser).
  destruct (user_eq (user request) uid).
  - assert (Hiff : (∃ n, (pid, p, n) ∈
        order_by_pub_date_desc
          (annotate_comment_count db
             (filter (λ r : nat * Post.t, Post.author r.2 = uid)
                     (select_related (objects (posts db))))))
      ↔ posts db !! pid = Some p ∧ Post.author p = uid).
    { split.
      - intros [n Hn]. apply elem_of_profile_own_posts in Hn. tauto.
      - intros [Hp Ha]. exists (Count_comments db pid).
        by apply elem_of_profile_own_posts. }
    split; [apply Hiff|done].
  - split; [|done]. intros [n Hn].
    apply elem_of_profile_public_posts in Hn. tauto.
Qed.

Lemma profile_lists_own_posts_only_witness :
  ¬ listed (profile "ann") Sample.db (Sample.get Sample.as_bob) 10 4
      Sample.hidden.
Proof.
  intros Hlisted.
  destruct (profile_lists_own_posts_only "ann" Sample.db
              (Sample.get Sample.as_bob) 10 1%nat Sample.ann 4%nat
              Sample.hidden) as [Honly _]; [reflexivity|].
  destruct (Honly Hlisted) as [_ Hauthor]. discriminate Hauthor.
Defined.

(** ** Further properties of the handlers *)

(** The comment count of a post after a comment is stored under a new
    key. *)
Lemma Count_comments_insert_new db cid c pid :
  comments db !! cid = None →
  Count_comments (with_comments (<[cid := c]> (comments db)) db) pid
  = if decide (Comment.post c = pid) then S (Count_comments db pid)
    else Count_comments db pid.
Proof.
  intros Hnew. unfold Count_comments, objects, with_comments. cbn [comments].
  rewrite (map_to_list_insert _ _ _ Hnew), filter_cons. simpl.
  by destruct (decide (Comment.post c = pid)).
Qed.

(** The comment count of a post after a stored comment is replaced by one
    of the same post. *)
Lemma Count_comments_insert_same_post db cid c c' pid :
  comments db !! cid = Some c → Comment.post c' = Comment.post c →
  Count_comments (with_comments (<[cid := c']> (comments db)) db) pid
  = Count_comments db pid.
Proof.
  intros Hc Hpost. unfold Count_comments, objects, with_comments. cbn [comments].
  rewrite <- (insert_delete_eq (comments db)).
  rewrite map_to_list_insert by apply lookup_delete_eq.
  rewrite <- (map_to_list_delete _ _ _ Hc), !filter_cons. simpl.
  rewrite Hpost. by destruct (decide (Comment.post c = pid)).
Qed.

(** The comment count of a post is the number of its comments in any
    order. *)
Lemma Count_comments_length db pid :
  length
    (Comment_Meta_ordering
       (filter (λ c : nat * Comment.t, Comment.post c.2 = pid)
               (select_related (objects (comments db)))))
  = Count_comments db pid.
Proof.
  unfold Comment_Meta_ordering, Count_comments, select_related.
  by rewrite merge_sort_Permutation.
Qed.

Section handlers.
Variable PostForm_clean :
  Store → list (string * string) → list (string * string) → option PostFormData.
Variable CommentForm_clean : Store → list (string * string) → option string.

Ltac run_view Hreq Hrow :=
  unfold login_required, get_by_id_or_404; rewrite Hreq; cbn [is_authenticated];
  rewrite ?Hrow; cbn [mbind Result_bind mret Result_ret fst snd];
  rewrite ?user_eq_Authenticated.

(** Property X7.  The comment count that a public listing shows beside a
    post is the number of comments that the detail page of that post
    renders. *)
Theorem comment_count_is_the_detail_count db request now (pid : nat)
    (p : Post.t) (n : nat) template context db' :
  (pid, p, n) ∈ get_posts_with_comments db now →
  PostDetailView_get CommentForm_clean pid db request now
  = Return (render template context, db') →
  ∃ cs, context !! "comments" = Some (VComments cs) ∧ length cs = n.
Proof.
  intros (_ & _ & ->)%elem_of_get_posts_with_comments Hget.
  destruct (PostDetailView_renders CommentForm_clean pid db request now
              template context db' (or_introl Hget)) as (p' & _ & Hcomments).
  eexists. split; [exact Hcomments|]. apply Count_comments_length.
Qed.

(** Property X8.  On valid data [create_post] stores one new post, with
    the requester as author and the request time as creation time, leaves
    the other posts as they were and redirects to the requester's
    profile; that profile then lists the new post to its author,
    whatever the post's flag, category and date. *)
Theorem create_post_stores_the_post db request now uid u d :
  user request = Authenticated uid u →
  validated (PostForm PostForm_clean db (or_None (POST request))
               (or_None (FILES request)))
  = Some d →
  ∃ pid,
    posts db !! pid = None
    ∧ create_post PostForm_clean db request now
      = Return
          (redirect (url_profile (User.username u)),
           with_posts (<[pid := construct_post d uid now]> (posts db)) db)
    ∧ Post.author (construct_post d uid now) = uid
    ∧ Post.created_at (construct_post d uid now) = now
    ∧ (users db !! uid = Some u →
       (∀ uid' u', users db !! uid' = Some u' →
                   User.username u' = User.username u → uid' = uid) →
       ∀ now',
         listed (profile (User.username u))
           (with_posts (<[pid := construct_post d uid now]> (posts db)) db)
           request now' pid (construct_post d uid now)).
Proof.
  intros Hreq Hvalid. exists (new_pk (posts db)).
  split; [apply (save_new_fresh (construct_post d uid now))|].
  split; [|split; [done|split; [done|]]].
  - unfold create_post, create_post__wrapped. run_view Hreq Hreq.
    by rewrite Hvalid.
  - intros Hu Huniq now'.
    rewrite (listed_profile _ _ _ _ uid u); [|by apply get_User_by_username].
    rewrite Hreq, user_eq_Authenticated, bool_decide_eq_true_2 by done.
    eexists. apply elem_of_profile_own_posts. split; [|done].
    apply lookup_insert_eq.
Qed.

(** Property X9.  On valid data [edit_post] by the author rewrites the
    one row of the post: under the same key the row now holds the cleaned
    fields of the form with the author and the creation time it had, and
    the other posts, the comments, the users, the categories and the
    locations are as they were. *)
Theorem edit_post_rewrites_one_row db request now uid u post_id p d :
  user request = Authenticated uid u →
  posts db !! post_id = Some p →
  Post.author p = uid →
  validated (PostForm PostForm_clean db (or_None (POST request)) None) = Some d →
  ∃ db',
    edit_post PostForm_clean post_id db request now
    = Return (redirect (url_post_detail post_id), db')
    ∧ posts db' !! post_id
      = Some (construct_post d (Post.author p) (Post.created_at p))
    ∧ (∀ i, i ≠ post_id → posts db' !! i = posts db !! i)
    ∧ comments db' = comments db
    ∧ users db' = users db
    ∧ categories db' = categories db
    ∧ locations db' = locations db.
Proof.
  intros Hreq Hp Hauthor Hvalid. eexists. split; [|split].
  - unfold edit_post, edit_post__wrapped. run_view Hreq Hp.
    rewrite bool_decide_eq_true_2 by done. cbn [negb]. rewrite Hvalid.
    reflexivity.
  - apply lookup_insert_eq.
  - split; [|done].
    intros i Hi. cbn [posts with_posts]. by rewrite lookup_insert_ne.
Qed.

(** Property X10.  On valid text [add_comment] stores one new comment on
    the post, with the requester as author and the request time as
    creation time; the comment count of the post grows by one, the counts
    of the other posts and the posts themselves are as they were. *)
Theorem add_comment_stores_the_comment db request now uid u post_id p text :
  user request = Authenticated uid u →
  posts db !! post_id = Some p →
  validated (CommentForm CommentForm_clean db (or_None (POST request)))
  = Some text →
  ∃ cid db',
    comments db !! cid = None
    ∧ add_comment CommentForm_clean post_id db request now
      = Return (redirect (url_post_detail post_id), db')
    ∧ comments db' = <[cid := Comment.mk text post_id now uid]> (comments db)
    ∧ posts db' = posts db
    ∧ Count_comments db' post_id = S (Count_comments db post_id)
    ∧ (∀ j, j ≠ post_id → Count_comments db' j = Count_comments db j).
Proof.
  intros Hreq Hp Hvalid.
  pose proof (save_new_fresh (Comment.mk text post_id now uid) (comments db))
    as Hnew.
  exists (new_pk (comments db)). eexists. split; [exact Hnew|]. split.
  { unfold add_comment, add_comment__wrapped. run_view Hreq Hp.
    rewrite Hvalid. reflexivity. }
  split; [done|]. split; [done|]. split.
  - unfold save_new. rewrite (Count_comments_insert_new _ _ _ _ Hnew).
    by rewrite decide_True.
  - intros j Hj. unfold save_new.
    rewrite (Count_comments_insert_new _ _ _ _ Hnew).
    by rewrite decide_False.
Qed.
(** Property X11.  [add_comment] looks the post up by its key alone: a
    requester who is not the author can comment on a post that fails the
    visibility predicate, where the detail page of that post answers
    "not found" to the same requester. *)
Theorem add_comment_skips_the_visibility_filter db request now uid u post_id p
    text :
  user request = Authenticated uid u →
  posts db !! post_id = Some p →
  Post.author p ≠ uid →
  ¬ visibility_predicate db now p →
  validated (CommentForm CommentForm_clean db (or_None (POST request)))
  = Some text →
  PostDetailView_get_object post_id db request now = Raise Http404
  ∧ PostDetailView_get CommentForm_clean post_id db request now = Raise Http404
  ∧ ∃ cid,
      comments db !! cid = None
      ∧ add_comment CommentForm_clean post_id db request now
        = Return
            (redirect (url_post_detail post_id),
             with_comments
               (<[cid := Comment.mk text post_id now uid]> (comments db)) db).
Proof.
  intros Hreq Hp Hother Hhidden Hvalid.
  assert (Hobj : PostDetailView_get_object post_id db request now
                 = Raise Http404).
  { rewrite PostDetailView_get_object_cases, Hp, Hreq, user_eq_Authenticated.
    rewrite bool_decide_eq_false_2 by done.
    apply passes_filter_false in Hhidden. by rewrite Hhidden. }
  split; [exact Hobj|].
  split; [by apply PostDetailView_get_Raise|].
  exists (new_pk (comments db)).
  split; [apply (save_new_fresh (Comment.mk text post_id now uid))|].
  unfold add_comment, add_comment__wrapped. run_view Hreq Hp.
  by rewrite Hvalid.
Qed.

(** Property X12.  On valid text [edit_comment] by the author replaces
    the text of the comment and nothing else: its post, author and
    creation time, the other comments, the posts and every comment count
    are as they were.  The comment is looked up by its own key; the post
    key of the URL only names the page of the redirect and need not be
    the comment's post. *)
Theorem edit_comment_replaces_the_text db request now uid u post_id comment_id
    c text :
  user request = Authenticated uid u →
  comments db !! comment_id = Some c →
  Comment.author c = uid →
  validated (CommentForm CommentForm_clean db (or_None (POST request)))
  = Some text →
  ∃ db',
    edit_comment CommentForm_clean post_id comment_id db request now
    = Return (redirect (url_post_detail post_id), db')
    ∧ comments db' !! comment_id
      = Some (Comment.mk text (Comment.post c) (Comment.created_at c)
                (Comment.author c))
    ∧ (∀ i, i ≠ comment_id → comments db' !! i = comments db !! i)
    ∧ posts db' = posts db
    ∧ ∀ j, Count_comments db' j = Count_comments db j.
Proof.
  intros Hreq Hc Hauthor Hvalid. eexists. split; [|split; [|split; [|split]]].
  - unfold edit_comment, edit_comment__wrapped. run_view Hreq Hc.
    rewrite bool_decide_eq_true_2 by done. cbn [negb]. rewrite Hvalid.
    reflexivity.
  - apply lookup_insert_eq.
  - intros i Hi. cbn [comments with_comments]. by rewrite lookup_insert_ne.
  - done.
  - intros j. by apply (Count_comments_insert_same_post _ _ c).
Qed.

(** Property X13.  Every handler under [login_required] sends an
    anonymous requester to the login page before it looks anything up:
    the answer is the same whether or not the resource exists, and the
    store is as it was. *)
Theorem anonymous_is_sent_to_login db request now post_id comment_id :
  user request = AnonymousUser →
  create_post PostForm_clean db request now = Return (redirect url_login, db)
  ∧ edit_post PostForm_clean post_id db request now
    = Return (redirect url_login, db)
  ∧ delete_post PostForm_clean post_id db request now
    = Return (redirect url_login, db)
  ∧ add_comment CommentForm_clean post_id db request now
    = Return (redirect url_login, db)
  ∧ edit_comment CommentForm_clean post_id comment_id db request now
    = Return (redirect url_login, db)
  ∧ delete_comment post_id comment_id db request now
    = Return (redirect url_login, db).
Proof.
  intros Hanon.
  unfold create_post, edit_post, delete_post, add_comment, edit_comment,
    delete_comment, login_required.
  by rewrite Hanon.
Qed.

(** Property X14.  For a logged in requester a key that no row has is
    "not found": the post key for [edit_post], [delete_post] and
    [add_comment], the comment key for [edit_comment] and
    [delete_comment], even when the post key of the URL names a post. *)
Theorem missing_row_is_not_found db request now uid u :
  user request = Authenticated uid u →
  (∀ post_id,
     posts db !! post_id = None →
     edit_post PostForm_clean post_id db request now = Raise Http404
     ∧ delete_post PostForm_clean post_id db request now = Raise Http404
     ∧ add_comment CommentForm_clean post_id db request now = Raise Http404)
  ∧ (∀ post_id comment_id,
       comments db !! comment_id = None →
       edit_comment CommentForm_clean post_id comment_id db request now
       = Raise Http404
       ∧ delete_comment post_id comment_id db request now = Raise Http404).
Proof.
  intros Hreq. split.
  - intros post_id Hnone. repeat split.
    + unfold edit_post, edit_post__wrapped. by run_view Hreq Hnone.
    + unfold delete_post, delete_post__wrapped. by run_view Hreq Hnone.
    + unfold add_comment, add_comment__wrapped. by run_view Hreq Hnone.
  - intros post_id comment_id Hnone. split.
    + unfold edit_comment, edit_comment__wrapped. by run_view Hreq Hnone.
    + unfold delete_comment, delete_comment__wrapped. by run_view Hreq Hnone.
Qed.

(** Property X15.  A POST to [delete_post] by the author removes the
    comments of the post with it: the comments left are those of the
    other posts, and users, categories and locations are as they were. *)
Theorem delete_post_removes_the_comments db request now uid u post_id p :
  user request = Authenticated uid u →
  posts db !! post_id = Some p →
  Post.author p = uid →
  method request = "POST" →
  ∃ db',
    delete_post PostForm_clean post_id db request now
    = Return (redirect url_index, db')
    ∧ (∀ cid c,
         comments db' !! cid = Some c
         ↔ comments db !! cid = Some c ∧ Comment.post c ≠ post_id)
    ∧ users db' = users db
    ∧ categories db' = categories db
    ∧ locations db' = locations db.
Proof.
  intros Hreq Hp Hauthor Hmethod. exists (Post_delete post_id db).
  split; [|split; [|done]].
  - unfold delete_post, delete_post__wrapped. run_view Hreq Hp.
    rewrite bool_decide_eq_true_2 by done. cbn [negb].
    by rewrite bool_decide_eq_true_2.
  - intros cid c. apply lookup_comments_Post_delete.
Qed.

End handlers.

Lemma comment_count_is_the_detail_count_witness :
  ∃ context cs,
    PostDetailView_get Sample.CommentForm_clean 1 Sample.db
      (Sample.get Sample.as_bob) 10
    = Return (render "blog/detail.html" context, Sample.db)
    ∧ context !! "comments" = Some (VComments cs)
    ∧ length cs = 2%nat.
Proof.
  eexists. 
  edestruct (comment_count_is_the_detail_count Sample.CommentForm_clean
               Sample.db (Sample.get Sample.as_bob) 10 1%nat Sample.fjords
               2%nat)
    as (cs & Hcomments & Hlength).
  - assert (Hrows : get_posts_with_comments Sample.db 10
                    = [(1%nat, Sample.fjords, 2%nat)]) by reflexivity.
    rewrite Hrows. by left.
  - reflexivity.
  - exists cs. split; [reflexivity|]. split; [exact Hcomments|exact Hlength].
Defined.

Lemma create_post_stores_the_post_witness :
  ∃ pid,
    posts Sample.db !! pid = None
    ∧ create_post Sample.PostForm_clean Sample.db
        (Sample.post Sample.as_ann [("title", "Lakes")]) 10
      = Return
          (redirect (url_profile "ann"),
           with_posts
             (<[pid := construct_post
                         (mkPostFormData true "Lakes" "" 0 None None) 1 10]>
                (posts Sample.db))
             Sample.db).
Proof.
  destruct (create_post_stores_the_post Sample.PostForm_clean Sample.db
              (Sample.post Sample.as_ann [("title", "Lakes")]) 10
              1%nat Sample.ann (mkPostFormData true "Lakes" "" 0 None None)
              eq_refl eq_refl)
    as (pid & Hnew & Hview & _).
  exists pid. split; [exact Hnew|exact Hview].
Defined.

Lemma edit_post_rewrites_one_row_witness :
  ∃ db',
    edit_post Sample.PostForm_clean 1 Sample.db
      (Sample.post Sample.as_ann [("title", "Fjords again")]) 10
    = Return (redirect (url_post_detail 1), db')
    ∧ posts db' !! 1%nat
      = Some (Post.mk true 1 1 "Fjords again" "" 0 None None)
    ∧ posts db' !! 2%nat = Some Sample.scheduled.
Proof.
  destruct (edit_post_rewrites_one_row Sample.PostForm_clean Sample.db
              (Sample.post Sample.as_ann [("title", "Fjords again")]) 10
              1%nat Sample.ann 1%nat Sample.fjords
              (mkPostFormData true "Fjords again" "" 0 None None)
              eq_refl eq_refl eq_refl eq_refl)
    as (db' & Hview & Hrow & Hothers & _).
  exists db'. split; [exact Hview|]. split; [exact Hrow|].
  rewrite Hothers by done. reflexivity.
Defined.

Lemma add_comment_stores_the_comment_witness :
  ∃ db',
    add_comment Sample.CommentForm_clean 1 Sample.db
      (Sample.post Sample.as_bob [("text", "Third!")]) 10
    = Return (redirect (url_post_detail 1), db')
    ∧ Count_comments db' 1 = 3%nat.
Proof.
  destruct (add_comment_stores_the_comment Sample.CommentForm_clean Sample.db
              (Sample.post Sample.as_bob [("text", "Third!")]) 10
              2%nat Sample.bob 1%nat Sample.fjords "Third!"
              eq_refl eq_refl eq_refl)
    as (cid & db' & _ & Hview & _ & _ & Hcount & _).
  exists db'. split; [exact Hview|]. rewrite Hcount. reflexivity.
Defined.

Lemma add_comment_skips_the_visibility_filter_witness :
  PostDetailView_get Sample.CommentForm_clean 4 Sample.db
    (Sample.post Sample.as_ann [("text", "Seen it")]) 10
  = Raise Http404
  ∧ ∃ cid,
      comments Sample.db !! cid = None
      ∧ add_comment Sample.CommentForm_clean 4 Sample.db
          (Sample.post Sample.as_ann [("text", "Seen it")]) 10
        = Return
            (redirect (url_post_detail 4),
             with_comments
               (<[cid := Comment.mk "Seen it" 4 10 1]> (comments Sample.db))
               Sample.db).
Proof.
  destruct (add_comment_skips_the_visibility_filter Sample.CommentForm_clean
              Sample.db (Sample.post Sample.as_ann [("text", "Seen it")]) 10
              1%nat Sample.ann 4%nat Sample.hidden "Seen it")
    as (_ & Hget & Hadd); try reflexivity.
  - intros Heq. discriminate Heq.
  - intros (Hflag & _). discriminate Hflag.
  - split; [exact Hget|exact Hadd].
Defined.

Lemma edit_comment_replaces_the_text_witness :
  ∃ db',
    edit_comment Sample.CommentForm_clean 4 2 Sample.db
      (Sample.post Sample.as_ann [("text", "First, edited")]) 10
    = Return (redirect (url_post_detail 4), db')
    ∧ comments db' !! 2%nat = Some (Comment.mk "First, edited" 1 6 1).
Proof.
  destruct (edit_comment_replaces_the_text Sample.CommentForm_clean Sample.db
              (Sample.post Sample.as_ann [("text", "First, edited")]) 10
              1%nat Sample.ann 4%nat 2%nat Sample.early_comment
              "First, edited" eq_refl eq_refl eq_refl eq_refl)
    as (db' & Hview & Hrow & _).
  exists db'. split; [exact Hview|exact Hrow].
Defined.

Lemma anonymous_is_sent_to_login_witness :
  delete_post Sample.PostForm_clean 99 Sample.db
    (Sample.post AnonymousUser []) 10
  = Return (redirect url_login, Sample.db).
Proof.
  apply (anonymous_is_sent_to_login Sample.PostForm_clean
           Sample.CommentForm_clean Sample.db (Sample.post AnonymousUser [])
           10 99%nat 0%nat eq_refl).
Defined.

Lemma missing_row_is_not_found_witness :
  add_comment Sample.CommentForm_clean 99 Sample.db
    (Sample.post Sample.as_bob [("text", "Anyone?")]) 10
  = Raise Http404
  ∧ delete_comment 1 99 Sample.db (Sample.post Sample.as_bob []) 10
    = Raise Http404.
Proof.
  split.
  - apply (missing_row_is_not_found Sample.PostForm_clean
             Sample.CommentForm_clean Sample.db
             (Sample.post Sample.as_bob [("text", "Anyone?")]) 10
             2%nat Sample.bob eq_refl).
    reflexivity.
  - apply (missing_row_is_not_found Sample.PostForm_clean
             Sample.CommentForm_clean Sample.db
             (Sample.post Sample.as_bob []) 10 2%nat Sample.bob eq_refl).
    reflexivity.
Defined.

Lemma delete_post_removes_the_comments_witness :
  ∃ db',
    delete_post Sample.PostForm_clean 1 Sample.db
      (Sample.post Sample.as_ann []) 10
    = Return (redirect url_index, db')
    ∧ comments db' !! 1%nat = None.
Proof.
  destruct (delete_post_removes_the_comments Sample.PostForm_clean Sample.db
              (Sample.post Sample.as_ann []) 10 1%nat Sample.ann 1%nat
              Sample.fjords eq_refl eq_refl eq_refl eq_refl)
    as (db' & Hview & Hcomments & _).
  exists db'. split; [exact Hview|].
  destruct (comments db' !! 1%nat) as [c|] eqn:Hc; [|reflexivity].
  apply Hcomments in Hc as [Hc Hpost]. vm_compute in Hc.
  injection Hc as <-. by destruct Hpost.
Defined.

(** ** Further properties of deletion *)

Lemma lookup_delete_rows_singleton {A} (k : nat) (table : gmap nat A) i :
  delete_rows {[k]} table !! i = if decide (i = k) then None else table !! i.
Proof. rewrite lookup_delete_rows. repeat case_decide; set_solver. Qed.

Lemma lookup_posts_Category_delete cid db pid :
  posts (Category_delete cid db) !! pid
  = (λ p, if decide (Post.category p = Some cid)
          then Post.set_category None p else p)
      <$> posts db !! pid.
Proof.
  unfold Category_delete, Post_category_on_delete, cascaded.
  rewrite Post_delete_all_empty. store_simpl.
  rewrite lookup_on_delete_rows_SET_NULL.
  destruct (posts db !! pid) as [p|]; [|done]. simpl. f_equal.
  destruct (decide (references _ _ _)) as [Href|Href];
    rewrite references_singleton in Href;
    by rewrite ?decide_True, ?decide_False by done.
Qed.

Lemma lookup_posts_Location_delete lid db pid :
  posts (Location_delete lid db) !! pid
  = (λ p, if decide (Post.location p = Some lid)
          then Post.set_location None p else p)
      <$> posts db !! pid.
Proof.
  unfold Location_delete, Post_location_on_delete, cascaded.
  rewrite Post_delete_all_empty. store_simpl.
  rewrite lookup_on_delete_rows_SET_NULL.
  destruct (posts db !! pid) as [p|]; [|done]. simpl. f_equal.
  destruct (decide (references _ _ _)) as [Href|Href];
    rewrite references_singleton in Href;
    by rewrite ?decide_True, ?decide_False by done.
Qed.

Lemma tables_Category_delete cid db :
  users (Category_delete cid db) = users db
  ∧ locations (Category_delete cid db) = locations db
  ∧ comments (Category_delete cid db) = comments db
  ∧ ∀ i, categories (Category_delete cid db) !! i
         = if decide (i = cid) then None else categories db !! i.
Proof.
  unfold Category_delete, Post_category_on_delete, cascaded.
  rewrite Post_delete_all_empty. store_simpl.
  repeat split. intros i. apply lookup_delete_rows_singleton.
Qed.

Lemma tables_Location_delete lid db :
  users (Location_delete lid db) = users db
  ∧ categories (Location_delete lid db) = categories db
  ∧ comments (Location_delete lid db) = comments db
  ∧ ∀ i, locations (Location_delete lid db) !! i
         = if decide (i = lid) then None else locations db !! i.
Proof.
  unfold Location_delete, Post_location_on_delete, cascaded.
  rewrite Post_delete_all_empty. store_simpl.
  repeat split. intros i. apply lookup_delete_rows_singleton.
Qed.

Lemma lookup_posts_User_delete uid db pid p :
  posts (User_delete uid db) !! pid = Some p
  ↔ posts db !! pid = Some p ∧ Post.author p ≠ uid.
Proof.
  unfold User_delete, Post_author_on_delete, cascaded, Post_delete_all.
  store_simpl. rewrite lookup_delete_rows. case_decide as Hin.
  - apply elem_of_dom in Hin as [p' Hp']. split; [done|]. intros [Hp Hne].
    apply map_lookup_filter_Some in Hp' as [Hp' Href].
    apply references_singleton in Href. simpl in Href. congruence.
  - rewrite lookup_on_delete_rows_CASCADE, references_singleton.
    split; intros [? ?]; split; congruence.
Qed.

Lemma lookup_comments_User_delete uid db cid c :
  comments (User_delete uid db) !! cid = Some c
  ↔ comments db !! cid = Some c
    ∧ Comment.author c ≠ uid
    ∧ ∀ p, posts db !! Comment.post c = Some p → Post.author p ≠ uid.
Proof.
  unfold User_delete, Post_author_on_delete, Comment_author_on_delete,
    Comment_post_on_delete, cascaded, Post_delete_all.
  store_simpl. rewrite !lookup_on_delete_rows_CASCADE, references_singleton.
  unfold references at 1. simpl. rewrite elem_of_dom. split.
  - intros [[Hc Hauthor] Hpost]. split; [done|]. split; [congruence|].
    intros p Hp Heq. apply Hpost. exists p.
    apply map_lookup_filter_Some. split; [done|].
    apply references_singleton. simpl. by rewrite Heq.
  - intros (Hc & Hauthor & Hpost). split; [split; [done|congruence]|].
    intros [p [Hp Href%references_singleton]%map_lookup_filter_Some].
    simpl in Href. by apply (Hpost p Hp); congruence.
Qed.

Lemma tables_User_delete uid db :
  categories (User_delete uid db) = categories db
  ∧ locations (User_delete uid db) = locations db
  ∧ ∀ i, users (User_delete uid db) !! i
         = if decide (i = uid) then None else users db !! i.
Proof.
  unfold User_delete, Post_delete_all. store_simpl.
  repeat split. intros i. apply lookup_delete_rows_singleton.
Qed.

Lemma Post_delete_integrity k db :
  referential_integrity db → referential_integrity (Post_delete k db).
Proof.
  intros [Hposts Hcomments]. split.
  - intros pid p Hp. rewrite lookup_posts_Post_delete in Hp.
    case_decide; [done|]. exact (Hposts pid p Hp).
  - intros cid c [Hc Hne]%lookup_comments_Post_delete.
    destruct (Hcomments cid c Hc) as [Hpost Hauthor]. split; [|exact Hauthor].
    rewrite lookup_posts_Post_delete. by rewrite decide_False.
Qed.

Lemma Comment_delete_integrity k db :
  referential_integrity db → referential_integrity (Comment_delete k db).
Proof.
  intros [Hposts Hcomments]. split.
  - exact Hposts.
  - intros cid c Hc. rewrite lookup_comments_Comment_delete in Hc.
    case_decide; [done|]. exact (Hcomments cid c Hc).
Qed.

Lemma Category_delete_integrity k db :
  referential_integrity db → referential_integrity (Category_delete k db).
Proof.
  intros [Hposts Hcomments].
  destruct (tables_Category_delete k db) as (Husers & Hlocations & Hcs & Hcats).
  split.
  - intros pid p' Hp'. rewrite lookup_posts_Category_delete in Hp'.
    apply fmap_Some in Hp' as (p & Hp & ->).
    destruct (Hposts pid p Hp) as (Hauthor & Hcategory & Hlocation).
    unfold post_references_resolve. rewrite Husers, Hlocations.
    case_decide as Href.
    + repeat split; done.
    + repeat split; [done| |done].
      destruct (Post.category p) as [cid|]; [|done].
      rewrite Hcats, decide_False by congruence. done.
  - intros cid c Hc. rewrite Hcs in Hc.
    destruct (Hcomments cid c Hc) as [[p Hp] Hauthor].
    unfold comment_references_resolve. rewrite Husers. split; [|done].
    rewrite lookup_posts_Category_delete, Hp. by eexists.
Qed.

Lemma Location_delete_integrity k db :
  referential_integrity db → referential_integrity (Location_delete k db).
Proof.
  intros [Hposts Hcomments].
  destruct (tables_Location_delete k db) as (Husers & Hcategories & Hcs & Hlocs).
  split.
  - intros pid p' Hp'. rewrite lookup_posts_Location_delete in Hp'.
    apply fmap_Some in Hp' as (p & Hp & ->).
    destruct (Hposts pid p Hp) as (Hauthor & Hcategory & Hlocation).
    unfold post_references_resolve. rewrite Husers, Hcategories.
    case_decide as Href.
    + repeat split; done.
    + repeat split; [done|done|].
      destruct (Post.location p) as [lid|]; [|done].
      rewrite Hlocs, decide_False by congruence. done.
  - intros cid c Hc. rewrite Hcs in Hc.
    destruct (Hcomments cid c Hc) as [[p Hp] Hauthor].
    unfold comment_references_resolve. rewrite Husers. split; [|done].
    rewrite lookup_posts_Location_delete, Hp. by eexists.
Qed.

Lemma User_delete_integrity k db :
  referential_integrity db → referential_integrity (User_delete k db).
Proof.
  intros [Hposts Hcomments].
  destruct (tables_User_delete k db) as (Hcategories & Hlocations & Husers).
  split.
  - intros pid p [Hp Hne]%lookup_posts_User_delete.
    destruct (Hposts pid p Hp) as (Hauthor & Hcategory & Hlocation).
    unfold post_references_resolve. rewrite Hcategories, Hlocations, Husers.
    by rewrite decide_False.
  - intros cid c (Hc & Hne & Hpost)%lookup_comments_User_delete.
    destruct (Hcomments cid c Hc) as [[p Hp] Hauthor].
    unfold comment_references_resolve. rewrite Husers, decide_False by done.
    split; [|done]. exists p. apply lookup_posts_User_delete.
    split; [done|]. by apply Hpost.
Qed.

(** Property X17.  The [on_delete] choices of the models keep the store
    free of dangling references: when every foreign key of every post and
    comment names a row that is there, the same holds after the deletion
    of a post, a comment, a category, a location or a user. *)
Theorem deletion_keeps_referential_integrity db (k : nat) :
  referential_integrity db →
  referential_integrity (Post_delete k db)
  ∧ referential_integrity (Comment_delete k db)
  ∧ referential_integrity (Category_delete k db)
  ∧ referential_integrity (Location_delete k db)
  ∧ referential_integrity (User_delete k db).
Proof.
  intros Hdb.
  split; [by apply Post_delete_integrity|].
  split; [by apply Comment_delete_integrity|].
  split; [by apply Category_delete_integrity|].
  split; [by apply Location_delete_integrity|].
  by apply User_delete_integrity.
Qed.

(** Property X18.  Deleting a user removes the user's row, the comments
    the user wrote and the comments under the user's posts, and nothing
    else: the comments left are those of other authors under posts of
    other authors, the other users, the categories and the locations are
    as they were. *)
Theorem user_delete_cascades_to_comments db (uid : nat) :
  (∀ cid c,
     comments (User_delete uid db) !! cid = Some c
     ↔ comments db !! cid = Some c
       ∧ Comment.author c ≠ uid
       ∧ ∀ p, posts db !! Comment.post c = Some p → Post.author p ≠ uid)
  ∧ (∀ i, users (User_delete uid db) !! i
          = if decide (i = uid) then None else users db !! i)
  ∧ categories (User_delete uid db) = categories db
  ∧ locations (User_delete uid db) = locations db.
Proof.
  destruct (tables_User_delete uid db) as (Hcategories & Hlocations & Husers).
  split; [|done]. intros cid c. apply lookup_comments_User_delete.
Qed.

(** The rows of the index after a change of the store that keeps the
    listed rows. *)
Lemma listed_IndexView_iff db request now (pid : nat) (p : Post.t) :
  listed IndexView_get db request now pid p
  ↔ posts db !! pid = Some p ∧ visibility_predicate db now p.
Proof.
  rewrite listed_IndexView. split.
  - intros [n Hn]. apply elem_of_get_posts_with_comments in Hn. tauto.
  - intros [Hp Hvis]. exists (Count_comments db pid).
    by apply elem_of_get_posts_with_comments.
Qed.

(** Property X19.  Deleting a category takes its posts off the index and
    leaves the other posts on it: the posts that referenced the category
    stay in the table without a category, which the filter does not
    pass. *)
Theorem category_delete_hides_its_posts cid db request now (pid : nat)
    (p : Post.t) :
  listed IndexView_get (Category_delete cid db) request now pid p
  ↔ listed IndexView_get db request now pid p ∧ Post.category p ≠ Some cid.
Proof.
  destruct (tables_Category_delete cid db) as (_ & _ & _ & Hcats).
  rewrite !listed_IndexView_iff, lookup_posts_Category_delete.
  unfold visibility_predicate. split.
  - intros (Hp & Hflag & (c' & c & Hcat & Hc & Hpub) & Hdate).
    apply fmap_Some in Hp as (p0 & Hp0 & ->).
    rewrite Hcats in Hc. case_decide as Hdel; [done|].
    case_decide as Href; [done|].
    split; [|done]. split; [done|]. split; [done|]. split; [|done].
    by exists c', c.
  - intros ((Hp & Hflag & (c' & c & Hcat & Hc & Hpub) & Hdate) & Hne).
    rewrite Hp. simpl. rewrite decide_False by done.
    split; [done|]. split; [done|]. split; [|done].
    exists c', c. split; [done|]. split; [|done].
    rewrite Hcats, decide_False; [done|congruence].
Qed.

(** Property X20.  Deleting a user takes the user's posts off the index
    and leaves the other posts on it; the profile page of a user whose
    name no other user has is "not found" afterwards. *)
Theorem user_delete_removes_posts_and_profile uid db request now :
  (∀ (pid : nat) (p : Post.t),
     listed IndexView_get (User_delete uid db) request now pid p
     ↔ listed IndexView_get db request now pid p ∧ Post.author p ≠ uid)
  ∧ (∀ u,
       users db !! uid = Some u →
       (∀ uid' u', users db !! uid' = Some u' →
                   User.username u' = User.username u → uid' = uid) →
       profile (User.username u) (User_delete uid db) request now
       = Raise Http404).
Proof.
  destruct (tables_User_delete uid db) as (Hcategories & _ & Husers).
  split.
  - intros pid p. rewrite !listed_IndexView_iff, lookup_posts_User_delete.
    unfold visibility_predicate. rewrite Hcategories. tauto.
  - intros u Hu Huniq. apply profile_Raise, get_object_or_404_none.
    intros j u' Hj Hname. simpl in Hname. rewrite Husers in Hj.
    case_decide as Hne; [done|]. by apply Hne, (Huniq j u').
Qed.

Lemma user_delete_removes_posts_and_profile_witness :
  profile "ann" (User_delete 1 Sample.db) (Sample.get Sample.as_bob) 10
  = Raise Http404.
Proof.
  apply (user_delete_removes_posts_and_profile 1 Sample.db
           (Sample.get Sample.as_bob) 10)
    with (u := Sample.ann); [reflexivity|].
  intros uid' u' Hu' Hname.
  destruct (decide (uid' = 1%nat)) as [|Hne1]; [done|].
  destruct (decide (uid' = 2%nat)) as [->|Hne2].
  - vm_compute in Hu'. injection Hu' as <-. discriminate Hname.
  - unfold Sample.db in Hu'. cbn [users] in Hu'.
    rewrite lookup_insert_ne, lookup_singleton_ne in Hu' by done.
    discriminate Hu'.
Defined.

Lemma Sample_db_integrity : referential_integrity Sample.db.
Proof.
  split.
  - unfold Sample.db. cbn [posts].
    repeat apply map_Forall_insert_2; [..|apply map_Forall_empty];
      (split; [by eexists|split; simpl; [try by eexists|try by eexists]]).
  - unfold Sample.db. cbn [comments].
    repeat apply map_Forall_insert_2; [..|apply map_Forall_empty];
      (split; by eexists).
Defined.

Lemma deletion_keeps_referential_integrity_witness :
  referential_integrity (User_delete 1 Sample.db)
  ∧ referential_integrity (Category_delete 1 Sample.db).
Proof.
  destruct (deletion_keeps_referential_integrity Sample.db 1
              Sample_db_integrity)
    as (_ & _ & Hcategory & _ & Huser).
  split; [exact Huser|exact Hcategory].
Defined.

(** Storing a comment whose post and author are there keeps the store
    free of dangling references. *)
Lemma comment_insert_integrity db k c :
  referential_integrity db →
  is_Some (posts db !! Comment.post c) →
  is_Some (users db !! Comment.author c) →
  referential_integrity (with_comments (<[k := c]> (comments db)) db).
Proof.
  intros [Hposts Hcomments] Hpost Hauthor. split; [exact Hposts|].
  apply map_Forall_insert_2; [by split|exact Hcomments].
Qed.

Section integrity.
Variable PostForm_clean :
  Store → list (string * string) → list (string * string) → option PostFormData.
Variable CommentForm_clean : Store → list (string * string) → option string.

(** Property X21.  The handlers that store, change or delete comments,
    and the deletion of a post, keep the store free of dangling
    references for a requester who is a stored user: whatever branch they
    take, the store they return has every foreign key resolved when the
    store they received had. *)
Theorem comment_handlers_keep_referential_integrity db request now uid u
    post_id comment_id response db' :
  referential_integrity db →
  user request = Authenticated uid u →
  users db !! uid = Some u →
  add_comment CommentForm_clean post_id db request now = Return (response, db')
  ∨ PostDetailView_post CommentForm_clean post_id db request now
    = Return (response, db')
  ∨ edit_comment CommentForm_clean post_id comment_id db request now
    = Return (response, db')
  ∨ delete_comment post_id comment_id db request now = Return (response, db')
  ∨ delete_post PostForm_clean post_id db request now = Return (response, db') →
  referential_integrity db'.
Proof.
  intros Hdb Hreq Hu [Hview|[Hview|[Hview|[Hview|Hview]]]].
  - unfold add_comment, add_comment__wrapped, login_required, get_by_id_or_404
      in Hview.
    rewrite Hreq in Hview. cbn [is_authenticated] in Hview.
    destruct (posts db !! post_id) as [p|] eqn:Hp; [|done].
    cbn [mbind Result_bind mret Result_ret fst snd as_author] in Hview.
    destruct (validated _) as [text|]; injection Hview as _ <-; [|done].
    apply comment_insert_integrity; [done|by eexists..].
  - destruct (PostDetailView_get_object post_id db request now)
      as [e|[i p]] eqn:Hobj.
    { by rewrite (PostDetailView_post_Raise _ _ _ _ _ _ Hobj) in Hview. }
    destruct (PostDetailView_get_object_id _ _ _ _ _ Hobj) as [Hi Hp].
    simpl in Hi, Hp. subst i.
    unfold PostDetailView_post in Hview. rewrite Hobj, Hreq in Hview.
    cbn [mbind Result_bind mret Result_ret fst snd as_author] in Hview.
    destruct (validated _) as [text|].
    + injection Hview as _ <-.
      apply comment_insert_integrity; [done|by eexists..].
    + rewrite (PostDetailView_get_context_data_Return _ _ _ _ _ _ _ Hobj)
        in Hview.
      by injection Hview as _ <-.
  - unfold edit_comment, edit_comment__wrapped, login_required,
      get_by_id_or_404 in Hview.
    rewrite Hreq in Hview. cbn [is_authenticated] in Hview.
    destruct (comments db !! comment_id) as [c|] eqn:Hc; [|done].
    cbn [mbind Result_bind mret Result_ret fst snd] in Hview.
    destruct (negb _); [by injection Hview as _ <-|].
    destruct (validated _) as [text|]; injection Hview as _ <-; [|done].
    destruct Hdb as [Hposts Hcomments].
    destruct (Hcomments comment_id c Hc) as [Hpost Hauthor].
    by apply comment_insert_integrity.
  - unfold delete_comment, delete_comment__wrapped, login_required,
      get_by_id_or_404 in Hview.
    rewrite Hreq in Hview. cbn [is_authenticated] in Hview.
    destruct (comments db !! comment_id) as [c|] eqn:Hc; [|done].
    cbn [mbind Result_bind mret Result_ret fst snd] in Hview.
    destruct (negb _); [by injection Hview as _ <-|].
    destruct (bool_decide _); injection Hview as _ <-; [|done].
    by apply Comment_delete_integrity.
  - unfold delete_post, delete_post__wrapped, login_required,
      get_by_id_or_404 in Hview.
    rewrite Hreq in Hview. cbn [is_authenticated] in Hview.
    destruct (posts db !! post_id) as [p|] eqn:Hp; [|done].
    cbn [mbind Result_bind mret Result_ret fst snd] in Hview.
    destruct (negb _); [by injection Hview as _ <-|].
    destruct (bool_decide _); injection Hview as _ <-; [|done].
    by apply Post_delete_integrity.
Qed.

(** Property X22.  After the author's POST to [delete_post] the post is
    gone for everybody: its detail page is "not found" for every
    requester, the author too, and no page of the index lists a post
    under its key. *)
Theorem deleted_post_is_not_found db request now uid u post_id p :
  user request = Authenticated uid u →
  posts db !! post_id = Some p →
  Post.author p = uid →
  method request = "POST" →
  ∃ db',
    delete_post PostForm_clean post_id db request now
    = Return (redirect url_index, db')
    ∧ ∀ request' now',
        PostDetailView_get CommentForm_clean post_id db' request' now'
        = Raise Http404
        ∧ ∀ p', ¬ listed IndexView_get db' request' now' post_id p'.
Proof.
  intros Hreq Hp Hauthor Hmethod. exists (Post_delete post_id db). split.
  - unfold delete_post, delete_post__wrapped, login_required, get_by_id_or_404.
    rewrite Hreq. cbn [is_authenticated]. rewrite Hp.
    cbn [mbind Result_bind mret Result_ret fst snd].
    rewrite user_eq_Authenticated, bool_decide_eq_true_2 by done. cbn [negb].
    by rewrite bool_decide_eq_true_2.
  - assert (Hgone : posts (Post_delete post_id db) !! post_id = None).
    { rewrite lookup_posts_Post_delete. by rewrite decide_True. }
    intros request' now'. split.
    + apply PostDetailView_get_Raise.
      by rewrite PostDetailView_get_object_cases, Hgone.
    + intros p' [Hp' _]%listed_IndexView_iff. congruence.
Qed.
End integrity.

(** Property X23.  Time alone only adds posts to the public index: a post
    that some page lists at one time is listed at every later time, as
    long as the store is the same. *)
Theorem index_listing_grows_with_time db request now now' (pid : nat)
    (p : Post.t) :
  now ≤ now' →
  listed IndexView_get db request now pid p →
  listed IndexView_get db request now' pid p.
Proof.
  intros Hlater. rewrite !listed_IndexView_iff. unfold visibility_predicate.
  intros (Hp & Hflag & Hcat & Hdate). repeat split; [done..|lia].
Qed.

Lemma comment_handlers_keep_referential_integrity_witness :
  ∃ response db',
    add_comment Sample.CommentForm_clean 1 Sample.db
      (Sample.post Sample.as_bob [("text", "Third!")]) 10
    = Return (response, db')
    ∧ referential_integrity db'.
Proof.
  destruct (add_comment Sample.CommentForm_clean 1 Sample.db
              (Sample.post Sample.as_bob [("text", "Third!")]) 10)
    as [e|[response db']] eqn:Hview.
  { vm_compute in Hview. discriminate Hview. }
  exists response, db'. split; [reflexivity|].
  apply (comment_handlers_keep_referential_integrity Sample.PostForm_clean
           Sample.CommentForm_clean Sample.db
           (Sample.post Sample.as_bob [("text", "Third!")]) 10
           2%nat Sample.bob 1%nat 0%nat response db' Sample_db_integrity
           eq_refl eq_refl).
  left. exact Hview.
Defined.

Lemma deleted_post_is_not_found_witness :
  ∃ db',
    delete_post Sample.PostForm_clean 1 Sample.db
      (Sample.post Sample.as_ann []) 10
    = Return (redirect url_index, db')
    ∧ PostDetailView_get Sample.CommentForm_clean 1 db'
        (Sample.get Sample.as_ann) 11
      = Raise Http404.
Proof.
  destruct (deleted_post_is_not_found Sample.PostForm_clean
              Sample.CommentForm_clean Sample.db
              (Sample.post Sample.as_ann []) 10 1%nat Sample.ann 1%nat
              Sample.fjords eq_refl eq_refl eq_refl eq_refl)
    as (db' & Hview & Hgone).
  exists db'. split; [exact Hview|].
  apply (Hgone (Sample.get Sample.as_ann) 11).
Defined.

Lemma index_listing_grows_with_time_witness :
  listed IndexView_get Sample.db (Sample.get AnonymousUser) 25 1 Sample.fjords.
Proof.
  apply (index_listing_grows_with_time Sample.db (Sample.get AnonymousUser)
           10 25 1%nat Sample.fjords); [lia|].
  apply listed_IndexView_iff. split; [reflexivity|].
  split; [reflexivity|]. split; [|by vm_compute].
  exists 1%nat, Sample.travel. repeat split; reflexivity.
Defined.
